(** * TradingGrow admin routes: the subscription-request workflow

    A shallow embedding of [admin_routes.py].  The view functions are
    translated statement by statement into a small state-and-exception monad
    over the relational store; the ORM classes of [models.py] ([User],
    [SubscriptionRequest], [StockScreening]) are not part of the sources at
    hand and are modelled from the written specification, each such
    definition being marked as such. *)

From stdpp Require Import gmap strings list fin_maps sorting lexico pretty.

Local Open Scope Z_scope.

(** ** Timestamps *)

(** A naive Python [datetime]: the calendar fields, compared field by field
    from the year down. *)
Record datetime := Datetime {
  year : N; month : N; day : N;
  hour : N; minute : N; second : N; microsecond : N
}.

Definition datetime_key (d : datetime) : N * (N * (N * (N * (N * (N * N))))) :=
  (year d, (month d, (day d, (hour d, (minute d, (second d, microsecond d)))))).

Definition datetime_lt (a b : datetime) : Prop :=
  lexico (datetime_key a) (datetime_key b).

(** [a <= b] on datetimes. *)
Definition datetime_le (a b : datetime) : Prop := ¬ datetime_lt b a.

(** Decimal rendering, left-padded with zeros to [width] digits. *)
Definition zfill (width : nat) (n : N) : string :=
  let s := pretty n in
  String.concat "" (replicate (width - String.length s) "0") +:+ s.

(** [d.strftime('%Y-%m-%d %H:%M')]: [%Y] is the year in decimal as the C
    library prints it, without padding (year 999 reads [999]); the other
    fields take two digits.  [isoformat] below does pad the year to four. *)
Definition strftime_ymd_hm (d : datetime) : string :=
  pretty (year d) +:+ "-" +:+ zfill 2 (month d) +:+ "-" +:+ zfill 2 (day d)
  +:+ " " +:+ zfill 2 (hour d) +:+ ":" +:+ zfill 2 (minute d).

(** [d.isoformat()] *)
Definition isoformat (d : datetime) : string :=
  zfill 4 (year d) +:+ "-" +:+ zfill 2 (month d) +:+ "-" +:+ zfill 2 (day d)
  +:+ "T" +:+ zfill 2 (hour d) +:+ ":" +:+ zfill 2 (minute d)
  +:+ ":" +:+ zfill 2 (second d)
  +:+ (if (microsecond d =? 0)%N then "" else "." +:+ zfill 6 (microsecond d)).

(** ** Rows of the relational store *)

Module User.
Record t := Build {
  id : string;
  email : string;
  full_name : string;
  subscription_tier : string;
  is_admin : bool
}.

Definition set_subscription_tier (tier : string) (u : t) : t :=
  {| id := id u; email := email u; full_name := full_name u;
     subscription_tier := tier; is_admin := is_admin u |}.
End User.

Module SubscriptionRequest.
Record t := Build {
  id : string;
  user_id : string;
  current_tier : string;
  requested_tier : string;
  status : string;
  created_at : datetime;
  updated_at : datetime
}.

Definition resolve (new_status : string) (now : datetime) (r : t) : t :=
  {| id := id r; user_id := user_id r; current_tier := current_tier r;
     requested_tier := requested_tier r; status := new_status;
     created_at := created_at r; updated_at := now |}.
End SubscriptionRequest.

Module StockScreening.
Record t := Build {
  id : string;
  name : string;
  created_by : string;
  criteria : string;
  results : string;
  created_at : datetime;
  updated_at : datetime
}.
End StockScreening.

(** ** Tables

    A table is the list of its rows; [key] reads the primary-key column. *)
Section table.
Context {A : Type} (key : A → string).

(** [Model.query.get(k)]: the row whose primary key is [k], if any. *)
Fixpoint table_get (k : string) (t : list A) : option A :=
  match t with
  | [] => None
  | r :: t' => if decide (key r = k) then Some r else table_get k t'
  end.

(** [UPDATE ... WHERE id = k] *)
Definition table_update (k : string) (f : A → A) (t : list A) : list A :=
  (λ r, if decide (key r = k) then f r else r) <$> t.

(** [DELETE ... WHERE id = k] *)
Definition table_delete (k : string) (t : list A) : list A :=
  filter (λ r, key r ≠ k) t.
End table.

(** The database: one table per model class.  The screenings are kept in the
    order [StockScreening.get_all()] yields them. *)
Record DB := MkDB {
  users : list User.t;
  requests : list SubscriptionRequest.t;
  screenings : list StockScreening.t
}.

Definition set_users (f : list User.t → list User.t) (d : DB) : DB :=
  {| users := f (users d); requests := requests d; screenings := screenings d |}.

Definition set_requests
    (f : list SubscriptionRequest.t → list SubscriptionRequest.t) (d : DB) : DB :=
  {| users := users d; requests := f (requests d); screenings := screenings d |}.

(** Everything a view can observe or change besides its arguments: the
    database, whether the persistence layer currently fails on commit (and
    with which message), the wall clock read by [datetime.utcnow()], and the
    messages queued by [flash]. *)
Record World := MkWorld {
  db : DB;
  store_error : option string;
  clock : datetime;
  flashes : list (string * string)
}.

Definition set_db (f : DB → DB) (w : World) : World :=
  {| db := f (db w); store_error := store_error w; clock := clock w;
     flashes := flashes w |}.

(** ** Python control flow: state plus exceptions *)

Inductive exn :=
  | AttributeError (msg : string)
  | StoreFailure (msg : string).

(** [str(e)] *)
Definition exn_str (e : exn) : string :=
  match e with AttributeError m => m | StoreFailure m => m end.

Inductive result (A : Type) :=
  | Ok (a : A)
  | Raise (e : exn).
Arguments Ok {A} a.
Arguments Raise {A} e.

Definition M (A : Type) : Type := World → result A * World.

Global Instance M_ret : MRet M := λ A a w, (Ok a, w).

Global Instance M_bind : MBind M := λ A B f m w,
  match m w with
  | (Ok a, w') => f a w'
  | (Raise e, w') => (Raise e, w')
  end.

Definition raise {A} (e : exn) : M A := λ w, (Raise e, w).

(** [try: body  except Exception as e: handler(e)] *)
Definition try_except {A} (body : M A) (handler : exn → M A) : M A := λ w,
  match body w with
  | (Ok a, w') => (Ok a, w')
  | (Raise e, w') => handler e w'
  end.

Definition get_world : M World := λ w, (Ok w, w).

(** [datetime.utcnow()] *)
Definition utcnow : M datetime := λ w, (Ok (clock w), w).

(** [flash(message, category)] *)
Definition flash (message category : string) : M unit := λ w,
  (Ok (), {| db := db w; store_error := store_error w; clock := clock w;
             flashes := flashes w ++ [(message, category)] |}).

(** [db.session.commit()] of the pending changes [changes] of the unit of
    work: either the store raises and nothing of the transaction is made
    durable, or all of it is. *)
Definition commit (changes : DB → DB) : M unit := λ w,
  match store_error w with
  | Some msg => (Raise (StoreFailure msg), w)
  | None => (Ok (), set_db changes w)
  end.

(** [db.session.rollback()]: the pending changes of the failed transaction
    are dropped; the durable rows are not touched. *)
Definition rollback : M unit := mret ().

(** ** JSON values and HTTP responses *)

#[warnings="-register-all"] Inductive jval :=
  | JStr (s : string)
  | JBool (b : bool)
  | JNum (n : Z)
  | JList (l : list jval)
  | JObj (fields : list (string * jval)).

(** A Python dict literal with string keys, in insertion order. *)
Abbreviation pydict := (list (string * jval)).

Fixpoint dict_get (key : string) (d : pydict) : option jval :=
  match d with
  | [] => None
  | (k, v) :: d' => if decide (k = key) then Some v else dict_get key d'
  end.

Inductive response :=
  | Json (body : pydict) (status_code : Z)
  | Redirect (endpoint : string)
  | RenderTemplate (template : string) (admin_data : option pydict).

(** [jsonify(body)] answers 200; [jsonify(body), code] answers [code]. *)
Definition jsonify (body : pydict) : response := Json body 200.

(** The request context Flask keeps in globals: the logged-in user of
    [flask_login] ([None] for an anonymous visitor) and the JSON object of
    the request body, its values being strings.  A context stands for a
    request whose body is such an object (the empty object included): a
    request without a JSON body, or with a body that is not an object, is
    answered where [request.get_json()] or [data.get] fails, before any
    other statement of the view, and has no counterpart here. *)
Record Context := MkContext {
  current_user : option User.t;
  get_json : gmap string string
}.

(** ** The model classes of [models.py] *)

(** Modelled from the spec: [User.get(user_id)] of the missing [models.py],
    the spec's [UserDirectory.get(user_id) -> User | not-found]. *)
Definition User_get (user_id : string) : M (option User.t) := λ w,
  (Ok (table_get User.id user_id (users (db w))), w).

(** Modelled from the spec: [User.get_all_users()] of the missing
    [models.py]: every row of the user table. *)
Definition User_get_all_users : M (list User.t) := λ w, (Ok (users (db w)), w).

(** The row change behind a tier assignment. *)
Definition assign_tier (user_id tier : string) : DB → DB :=
  set_users (table_update User.id user_id (User.set_subscription_tier tier)).

(** Modelled from the spec: [User.update_subscription(self, tier)] of the
    missing [models.py], the spec's
    [UserDirectory.updateSubscription(user_id, tier)], an idempotent tier
    assignment, made durable by the method itself since no view commits
    after calling it. *)
Definition User_update_subscription (self : User.t) (tier : string) : M unit :=
  commit (assign_tier (User.id self) tier).

(** [SubscriptionRequest.query.get(request_id)]: SQLAlchemy's lookup by
    primary key, [None] when there is no such row. *)
Definition SubscriptionRequest_query_get (request_id : string)
    : M (option SubscriptionRequest.t) := λ w,
  (Ok (table_get SubscriptionRequest.id request_id (requests (db w))), w).

(** The row change behind a resolution: the row of [self] takes the new
    status and the resolution time. *)
Definition resolve_request (self : SubscriptionRequest.t) (new_status : string)
    (now : datetime) : DB → DB :=
  set_requests (table_update SubscriptionRequest.id (SubscriptionRequest.id self)
                  (SubscriptionRequest.resolve new_status now)).

(** Modelled from the spec: [SubscriptionRequest.approve(self)] of the missing
    [models.py]: sets [status = approved], applies [requested_tier] to the
    referenced user through the tier mutation of the user directory, and
    records the resolution timestamp.  The spec does not say what happens
    when the referenced user is absent; the tier mutation then finds no row
    to change. *)
Definition SubscriptionRequest_approve (self : SubscriptionRequest.t) : M unit :=
  now ← utcnow;
  commit (λ d, assign_tier (SubscriptionRequest.user_id self)
                 (SubscriptionRequest.requested_tier self)
                 (resolve_request self "approved" now d)).

(** Modelled from the spec: [SubscriptionRequest.reject(self)] of the missing
    [models.py]: sets [status = rejected]; the user's tier is left
    unchanged. *)
Definition SubscriptionRequest_reject (self : SubscriptionRequest.t) : M unit :=
  now ← utcnow;
  commit (resolve_request self "rejected" now).

(** Requests in creation order. *)
Definition created_le (r1 r2 : SubscriptionRequest.t) : Prop :=
  datetime_le (SubscriptionRequest.created_at r1) (SubscriptionRequest.created_at r2).

Global Instance datetime_lt_dec : RelDecision datetime_lt.
Proof. intros a b. unfold datetime_lt. apply _. Defined.

Global Instance created_le_dec : RelDecision created_le.
Proof. intros a b. unfold created_le, datetime_le. apply _. Defined.

Definition is_pending (r : SubscriptionRequest.t) : Prop :=
  SubscriptionRequest.status r = "pending".

(** Modelled from the spec: [SubscriptionRequest.get_pending()] of the missing
    [models.py], the spec's [listPending]: all requests with
    [status == pending], ordered by creation time ascending. *)
Definition SubscriptionRequest_get_pending : M (list SubscriptionRequest.t) := λ w,
  (Ok (merge_sort created_le (filter is_pending (requests (db w)))), w).

(** Modelled from the spec: [StockScreening.get_all()] of the missing
    [models.py]; the spec leaves the screenings out of scope, so the rows
    come in the order the store keeps them. *)
Definition StockScreening_get_all : M (list StockScreening.t) := λ w,
  (Ok (screenings (db w)), w).

(** [db.session.delete(user)] followed by [db.session.commit()]. *)
Definition session_delete_commit (user : User.t) : M unit :=
  commit (set_users (table_delete User.id (User.id user))).

(** Reading an attribute of a possibly-[None] user object. *)
Definition getattr {A} (attr : string) (proj : User.t → A) (user : option User.t) : M A :=
  match user with
  | Some u => mret (proj u)
  | None => raise (AttributeError
              ("'NoneType' object has no attribute '" +:+ attr +:+ "'"))
  end.

(** ** The views of [admin_routes.py] *)

(** [admin_required(f)]: the decorated view runs [f] only for an
    authenticated admin; everyone else is flashed a message and redirected
    to the admin login. *)
Definition admin_required {A} (f : Context → A → M response)
    (ctx : Context) (arg : A) : M response :=
  match current_user ctx with
  | Some u =>
      if User.is_admin u then f ctx arg
      else
        _ ← flash "Admin access required." "error";
        mret (Redirect "admin.admin_login")
  | None =>
      _ ← flash "Admin access required." "error";
      mret (Redirect "admin.admin_login")
  end.

Definition screening_row (screening : StockScreening.t) : jval :=
  JObj [("id", JStr (StockScreening.id screening));
        ("name", JStr (StockScreening.name screening));
        ("created_by", JStr (StockScreening.created_by screening));
        ("criteria", JStr (StockScreening.criteria screening));
        ("results", JStr (StockScreening.results screening));
        ("created_at", JStr (isoformat (StockScreening.created_at screening)));
        ("updated_at", JStr (isoformat (StockScreening.updated_at screening)))].

(** The dict appended for one pending request; [user] is what
    [User.get(request.user_id)] returned. *)
Definition request_row (user : option User.t) (request : SubscriptionRequest.t)
    : jval :=
  JObj
    [("id", JStr (SubscriptionRequest.id request));
     ("user_email", JStr (match user with Some u => User.email u | None => "Unknown" end));
     ("user_name", JStr (match user with Some u => User.full_name u | None => "Unknown" end));
     ("current_tier", JStr (SubscriptionRequest.current_tier request));
     ("requested_tier", JStr (SubscriptionRequest.requested_tier request));
     ("created_at", JStr (strftime_ymd_hm (SubscriptionRequest.created_at request)));
     ("status", JStr (SubscriptionRequest.status request))].

(** One pass of the loop over [pending_requests] in [dashboard]. *)
Definition request_loop_body (request : SubscriptionRequest.t) : M jval :=
  user ← User_get (SubscriptionRequest.user_id request);
  mret (request_row user request).

(** [for x in xs: out.append(body(x))] *)
Fixpoint for_append {A B} (body : A → M B) (xs : list A) : M (list B) :=
  match xs with
  | [] => mret []
  | x :: xs' =>
      y ← body x;
      ys ← for_append body xs';
      mret (y :: ys)
  end.

Definition count_where {A} (P : A → bool) (l : list A) : Z :=
  Z.of_nat (length (filter (λ x, P x = true) l)).

Definition tier_is (tier : string) (u : User.t) : bool :=
  bool_decide (User.subscription_tier u = tier).

(** The three model queries yield lists, on which [x or []] is [x]. *)
Definition dashboard_body (ctx : Context) (_ : unit) : M response :=
  all_users ← User_get_all_users;
  let total_users := Z.of_nat (length all_users) in
  let admin_users := count_where User.is_admin all_users in
  let regular_users := total_users - admin_users in
  let free_users := count_where (tier_is "free") all_users in
  let medium_users := count_where (tier_is "medium") all_users in
  let pro_users := count_where (tier_is "pro") all_users in
  stock_screenings ← StockScreening_get_all;
  let screenings_data := screening_row <$> take 5 stock_screenings in
  pending_requests ← SubscriptionRequest_get_pending;
  requests_data ← for_append request_loop_body pending_requests;
  let stats :=
    [("total_users", JNum total_users);
     ("admin_users", JNum admin_users);
     ("regular_users", JNum regular_users);
     ("free_users", JNum free_users);
     ("medium_users", JNum medium_users);
     ("pro_users", JNum pro_users);
     ("total_screenings", JNum (Z.of_nat (length stock_screenings)));
     ("pending_requests", JNum (Z.of_nat (length pending_requests)))] in
  mret (RenderTemplate "spa.html"
          (Some [("stats", JObj stats);
                 ("screenings", JList screenings_data);
                 ("subscription_requests", JList requests_data)])).

Definition dashboard := admin_required dashboard_body.

Definition tier_choices : list string := ["free"; "medium"; "pro"].

(** [data] is the JSON object of the body, as [Context] has it. *)
Definition update_user_subscription_body (ctx : Context) (user_id : string)
    : M response :=
  let data := get_json ctx in
  match data !! "tier" with
  | None =>
      (* [None not in ['free', 'medium', 'pro']] *)
      mret (Json [("error", JStr "Invalid data")] 400)
  | Some new_tier =>
      if bool_decide (user_id = "") || bool_decide (new_tier ∉ tier_choices)
      then mret (Json [("error", JStr "Invalid data")] 400)
      else
        user ← User_get user_id;
        match user with
        | None => mret (Json [("error", JStr "User not found")] 404)
        | Some user =>
            _ ← User_update_subscription user new_tier;
            mret (jsonify [("success", JBool true);
                           ("message", JStr ("Updated " +:+ User.email user +:+ " to "
                                             +:+ new_tier +:+ " tier"))])
        end
  end.

Definition update_user_subscription := admin_required update_user_subscription_body.

Definition delete_user_body (ctx : Context) (user_id : string) : M response :=
  user ← User_get user_id;
  match user with
  | None => mret (Json [("error", JStr "User not found")] 404)
  | Some user =>
      if User.is_admin user
      then mret (Json [("error", JStr "Cannot delete admin users")] 403)
      else
        try_except
          (_ ← session_delete_commit user;
           mret (jsonify [("success", JBool true);
                          ("message", JStr ("Deleted user " +:+ User.email user))]))
          (λ e,
           _ ← rollback;
           mret (Json [("error", JStr (exn_str e))] 500))
  end.

Definition delete_user := admin_required delete_user_body.

(** [data] is the JSON object of the body, as [Context] has it. *)
Definition add_user_subscription_body (ctx : Context) (user_id : string)
    : M response :=
  let data := get_json ctx in
  let subscription_tier := default "medium" (data !! "tier") in
  user ← User_get user_id;
  match user with
  | None => mret (Json [("error", JStr "User not found")] 404)
  | Some user =>
      _ ← User_update_subscription user subscription_tier;
      mret (jsonify [("success", JBool true);
                     ("message", JStr ("Added " +:+ subscription_tier
                                       +:+ " subscription to " +:+ User.email user))])
  end.

Definition add_user_subscription := admin_required add_user_subscription_body.

Definition remove_user_subscription_body (ctx : Context) (user_id : string)
    : M response :=
  user ← User_get user_id;
  match user with
  | None => mret (Json [("error", JStr "User not found")] 404)
  | Some user =>
      _ ← User_update_subscription user "free";
      mret (jsonify [("success", JBool true);
                     ("message", JStr ("Removed subscription from " +:+ User.email user
                                       +:+ " (now free tier)"))])
  end.

Definition remove_user_subscription := admin_required remove_user_subscription_body.

Definition approve_subscription_request_body (ctx : Context) (request_id : string)
    : M response :=
  request ← SubscriptionRequest_query_get request_id;
  match request with
  | None => mret (Json [("error", JStr "Request not found")] 404)
  | Some request =>
      if bool_decide (SubscriptionRequest.status request ≠ "pending")
      then mret (Json [("error", JStr "Request already processed")] 400)
      else
        _ ← SubscriptionRequest_approve request;
        user ← User_get (SubscriptionRequest.user_id request);
        email ← getattr "email" User.email user;
        mret (jsonify [("success", JBool true);
                       ("message", JStr ("Approved " +:+ email +:+ "'s upgrade to "
                                         +:+ SubscriptionRequest.requested_tier request))])
  end.

Definition approve_subscription_request :=
  admin_required approve_subscription_request_body.

Definition reject_subscription_request_body (ctx : Context) (request_id : string)
    : M response :=
  request ← SubscriptionRequest_query_get request_id;
  match request with
  | None => mret (Json [("error", JStr "Request not found")] 404)
  | Some request =>
      if bool_decide (SubscriptionRequest.status request ≠ "pending")
      then mret (Json [("error", JStr "Request already processed")] 400)
      else
        _ ← SubscriptionRequest_reject request;
        user ← User_get (SubscriptionRequest.user_id request);
        email ← getattr "email" User.email user;
        mret (jsonify [("success", JBool true);
                       ("message", JStr ("Rejected " +:+ email +:+ "'s upgrade request"))])
  end.

Definition reject_subscription_request :=
  admin_required reject_subscription_request_body.

(** The session of an authenticated admin. *)
Definition is_admin_session (ctx : Context) : bool :=
  match current_user ctx with
  | Some u => User.is_admin u
  | None => false
  end.

(** ** Resolution calls, one statement at a time

    [approve_subscription_request] and [reject_subscription_request] differ
    only in the method called on the request and in the message.  To let two
    calls overlap, the body of the view is cut at its accesses to the store:
    the load of line 499/518, the two checks on the loaded object, the call of
    [request.approve()] / [request.reject()], and the user lookup that builds
    the answer.  Each call keeps the object it loaded; the store is shared. *)

Inductive verb := Approve | Reject.

Definition view_body (v : verb) : Context → string → M response :=
  match v with
  | Approve => approve_subscription_request_body
  | Reject => reject_subscription_request_body
  end.

Definition view (v : verb) : Context → string → M response :=
  admin_required (view_body v).

Definition resolve_method (v : verb) : SubscriptionRequest.t → M unit :=
  match v with
  | Approve => SubscriptionRequest_approve
  | Reject => SubscriptionRequest_reject
  end.

Definition success_message (v : verb) (email : string)
    (request : SubscriptionRequest.t) : string :=
  match v with
  | Approve => "Approved " +:+ email +:+ "'s upgrade to "
               +:+ SubscriptionRequest.requested_tier request
  | Reject => "Rejected " +:+ email +:+ "'s upgrade request"
  end.

Definition success (v : verb) (email : string) (request : SubscriptionRequest.t)
    : response :=
  jsonify [("success", JBool true);
           ("message", JStr (success_message v email request))].

Definition not_found : response := Json [("error", JStr "Request not found")] 404.
Definition invalid_state : response :=
  Json [("error", JStr "Request already processed")] 400.

(** Where a call stands. *)
Inductive pc :=
  | Start
  | Loaded (request : option SubscriptionRequest.t)
  | Checked (request : SubscriptionRequest.t)
  | Resolved (request : SubscriptionRequest.t)
  | Finished (answer : result response).

Definition step (v : verb) (request_id : string) (p : pc) (w : World) : pc * World :=
  match p with
  | Start =>
      match SubscriptionRequest_query_get request_id w with
      | (Ok request, w') => (Loaded request, w')
      | (Raise e, w') => (Finished (Raise e), w')
      end
  | Loaded None => (Finished (Ok not_found), w)
  | Loaded (Some request) =>
      if bool_decide (SubscriptionRequest.status request ≠ "pending")
      then (Finished (Ok invalid_state), w)
      else (Checked request, w)
  | Checked request =>
      match resolve_method v request w with
      | (Ok _, w') => (Resolved request, w')
      | (Raise e, w') => (Finished (Raise e), w')
      end
  | Resolved request =>
      match (user ← User_get (SubscriptionRequest.user_id request);
             email ← getattr "email" User.email user;
             mret (success v email request)) w with
      | (answer, w') => (Finished answer, w')
      end
  | Finished answer => (Finished answer, w)
  end.

(** A call run alone, from its first statement to its answer. *)
Definition run_alone (v : verb) (request_id : string) (w : World) : pc * World :=
  let '(p1, w1) := step v request_id Start w in
  let '(p2, w2) := step v request_id p1 w1 in
  let '(p3, w3) := step v request_id p2 w2 in
  step v request_id p3 w3.

(** Two calls in flight over one store. *)
Record race := MkRace {
  call1 : pc;
  call2 : pc;
  world : World
}.

(** The scheduler lets the first ([true]) or the second ([false]) call run
    its next statement. *)
Definition sched_step (c1 c2 : verb * string) (who : bool) (s : race) : race :=
  if who then
    let '(p, w) := step c1.1 c1.2 (call1 s) (world s) in
    {| call1 := p; call2 := call2 s; world := w |}
  else
    let '(p, w) := step c2.1 c2.2 (call2 s) (world s) in
    {| call1 := call1 s; call2 := p; world := w |}.

Definition run_schedule (c1 c2 : verb * string) (sched : list bool) (w : World)
    : race :=
  foldl (λ s who, sched_step c1 c2 who s) (MkRace Start Start w) sched.

(** One call after the other. *)
Definition serial : list bool := replicate 4 true ++ replicate 4 false.

(** Both calls load the request before either resolves it. *)
Definition overlapped : list bool :=
  [true; false; true; false; true; false; true; false].

(** What the spec promises of two calls on one pending request. *)
Definition exactly_one_succeeds (s : race) : Prop :=
  (∃ body, call1 s = Finished (Ok (Json body 200))
           ∧ call2 s = Finished (Ok invalid_state))
  ∨ (∃ body, call2 s = Finished (Ok (Json body 200))
             ∧ call1 s = Finished (Ok invalid_state)).

(** The rows a resolution changes, as one transaction. *)
Definition resolution_changes (v : verb) (request : SubscriptionRequest.t)
    (now : datetime) : DB → DB :=
  match v with
  | Approve => λ d, assign_tier (SubscriptionRequest.user_id request)
                      (SubscriptionRequest.requested_tier request)
                      (resolve_request request "approved" now d)
  | Reject => resolve_request request "rejected" now
  end.

(** The answer built after the resolution, from the user then found. *)
Definition resolution_answer (v : verb) (request : SubscriptionRequest.t)
    (user : option User.t) : result response :=
  match user with
  | Some u => Ok (success v (User.email u) request)
  | None => Raise (AttributeError "'NoneType' object has no attribute 'email'")
  end.

(** A field of a row dict. *)
Definition row_field (key : string) (row : jval) : option jval :=
  match row with
  | JObj fields => dict_get key fields
  | _ => None
  end.


(** The tier of a user, read from the store. *)
Definition tier_of (user_id : string) (d : DB) : option string :=
  User.subscription_tier <$> table_get User.id user_id (users d).

(** The status of a request, read from the store. *)
Definition status_of (request_id : string) (d : DB) : option string :=
  SubscriptionRequest.status <$> table_get SubscriptionRequest.id request_id (requests d).

(** ** A sample store *)

Definition t0 : datetime := Datetime 2025 1 5 9 30 0 0.
Definition t1 : datetime := Datetime 2025 1 7 18 5 12 0.
Definition t2 : datetime := Datetime 2025 2 1 0 0 0 0.

Definition alice : User.t := User.Build "u1" "alice@example.com" "Alice A" "free" false.
Definition root : User.t := User.Build "u0" "root@example.com" "Root" "pro" true.

Definition r1 : SubscriptionRequest.t :=
  SubscriptionRequest.Build "r1" "u1" "free" "pro" "pending" t1 t1.
Definition r2 : SubscriptionRequest.t :=
  SubscriptionRequest.Build "r2" "u9" "free" "medium" "pending" t0 t0.
Definition r3 : SubscriptionRequest.t :=
  SubscriptionRequest.Build "r3" "u1" "free" "medium" "rejected" t0 t1.

Definition db0 : DB := MkDB [root; alice] [r1; r2; r3] [].
Definition w0 : World := MkWorld db0 None t2 [].
Definition w_down : World := MkWorld db0 (Some "connection lost") t2 [].
Definition admin_ctx : Context := MkContext (Some root) ∅.
Definition gold_ctx : Context := MkContext (Some root) {["tier" := "gold"]}.

(** ** The admin login *)

Inductive http_method := GET | POST.

(** What [admin_login] reads of the request: the method, whether the body
    is JSON, the JSON object and the form fields. *)
Record LoginRequest := MkLoginRequest {
  method : http_method;
  is_json : bool;
  json_body : gmap string string;
  form : gmap string string
}.

(** The world together with the user id [login_user] keeps in the session. *)
Record Session := MkSession {
  session_world : World;
  session_user_id : option string
}.

(** Modelled from the spec: [User.get_by_email(email)] of the missing
    [models.py], the user directory's lookup of a user by email. *)
Definition User_get_by_email (email : string) (d : DB) : option User.t :=
  table_get User.email email (users d).

(** Truth value of [s] where [s] is a string or [None]. *)
Definition truthy (s : option string) : bool :=
  match s with
  | Some s => negb (bool_decide (s = ""))
  | None => false
  end.

(** [login_user(user, remember=True)] *)
Definition login_user (user : User.t) (s : Session) : Session :=
  {| session_world := session_world s; session_user_id := Some (User.id user) |}.

Definition flash_in_session (message category : string) (s : Session) : Session :=
  {| session_world := (flash message category (session_world s)).2;
     session_user_id := session_user_id s |}.

(** [admin_login]; [check_password user password] stands for
    [user.check_password(password)], whose hash comparison is not in the
    sources at hand. *)
Definition admin_login (check_password : User.t → string → bool)
    (req : LoginRequest) (s : Session) : response * Session :=
  match method req with
  | GET => (RenderTemplate "spa.html" None, s)
  | POST =>
      let data := if is_json req then json_body req else form req in
      let email := data !! "email" in
      let password := data !! "password" in
      if truthy email && truthy password then
        let user := User_get_by_email (default "" email) (db (session_world s)) in
        match user with
        | Some user =>
            if User.is_admin user && check_password user (default "" password)
            then
              if is_json req
              then (jsonify [("success", JBool true);
                             ("message", JStr "Admin login successful");
                             ("redirect", JStr "/admin/dashboard")],
                    login_user user s)
              else (Redirect "admin.dashboard", login_user user s)
            else
              if is_json req
              then (Json [("success", JBool false);
                          ("error", JStr "Invalid admin credentials.")] 401, s)
              else (RenderTemplate "spa.html" None,
                    flash_in_session "Invalid admin credentials." "error" s)
        | None =>
            if is_json req
            then (Json [("success", JBool false);
                        ("error", JStr "Invalid admin credentials.")] 401, s)
            else (RenderTemplate "spa.html" None,
                  flash_in_session "Invalid admin credentials." "error" s)
        end
      else
        if is_json req
        then (Json [("success", JBool false);
                    ("error", JStr "Please enter email and password.")] 400, s)
        else (RenderTemplate "spa.html" None,
              flash_in_session "Please enter email and password." "error" s)
  end.

(** ** Mock screening results *)

(** Python's [random] module, driven by a tape of raw draws: each call
    consumes the next draw (0 once the tape is used up) and maps it into the
    range asked for, so every outcome the range allows comes from some tape. *)
Module Random.
Definition tape := list N.

Definition draw (t : tape) : N * tape :=
  match t with
  | [] => (0%N, [])
  | d :: t' => (d, t')
  end.

(** [randint(a, b)] for [a <= b]. *)
Definition randint (a b : Z) (t : tape) : Z * tape :=
  let '(d, t') := draw t in
  (a + Z.of_N d `mod` (b - a + 1), t').

(** [choice(seq)]; [None] stands for the [IndexError] on an empty
    sequence. *)
Definition choice {A} (seq : list A) (t : tape) : option A * tape :=
  let '(d, t') := draw t in
  (seq !! (N.to_nat d `mod` length seq)%nat, t').

(** The float [round(uniform(a, b), ndigits)], kept as the expression it
    comes from together with its draw. *)
Record pyfloat := RoundUniform {
  uniform_a : Z;
  uniform_b : Z;
  ndigits : Z;
  uniform_draw : N
}.

Definition round_uniform (a b nd : Z) (t : tape) : pyfloat * tape :=
  let '(d, t') := draw t in
  (RoundUniform a b nd d, t').
End Random.

#[warnings="-register-all"] Inductive mockval :=
  | MStr (s : string)
  | MInt (n : Z)
  | MFloat (x : Random.pyfloat)
  | MList (l : list mockval)
  | MDict (fields : list (string * mockval)).

Fixpoint mock_get (key : string) (d : list (string * mockval)) : option mockval :=
  match d with
  | [] => None
  | (k, v) :: d' => if decide (k = key) then Some v else mock_get key d'
  end.

Definition symbols : list string :=
  ["AAPL"; "MSFT"; "GOOGL"; "TSLA"; "AMZN"; "NVDA"; "META"; "NFLX";
   "AMD"; "CRM"; "ORCL"; "IBM"; "INTC"; "CSCO"; "ADBE"].

(** What [for symbol in s] yields for a string [s]: its characters, each a
    string of length one. *)
Definition chars (s : string) : list string :=
  (λ c, String c EmptyString) <$> String.list_ascii_of_string s.

(** The dict appended for one [symbol]; the draws are made in the order the
    dict literal lists its values. *)
Definition mock_stock (symbol : string) (t : Random.tape)
    : list (string * mockval) * Random.tape :=
  let '(price, t) := Random.round_uniform 50 500 2 t in
  let '(change_percent, t) := Random.round_uniform (-5) 8 2 t in
  let '(volume, t) := Random.randint 1000000 50000000 t in
  let '(market_cap, t) := Random.randint 100 2000 t in
  let '(pe_ratio, t) := Random.round_uniform 10 35 1 t in
  let '(score, t) := Random.randint 60 95 t in
  ([("symbol", MStr symbol);
    ("price", MFloat price);
    ("change_percent", MFloat change_percent);
    ("volume", MInt volume);
    ("market_cap", MStr ("$" +:+ pretty market_cap +:+ "B"));
    ("pe_ratio", MFloat pe_ratio);
    ("score", MInt score)], t).

Fixpoint mock_stocks (selected_symbols : list string) (t : Random.tape)
    : list (list (string * mockval)) * Random.tape :=
  match selected_symbols with
  | [] => ([], t)
  | symbol :: rest =>
      let '(stock, t) := mock_stock symbol t in
      let '(results, t) := mock_stocks rest t in
      (stock :: results, t)
  end.

(** [generate_mock_screening_results(criteria)]; [now] is what
    [datetime.utcnow()] returns.  [choice] yields one symbol, a string, and
    the loop runs over that string. *)
Definition generate_mock_screening_results (criteria : gmap string jval)
    (now : datetime) (t : Random.tape)
    : option (list (string * mockval)) * Random.tape :=
  let '(num_results, t) :=
    Random.randint 5 (Z.min (Z.of_nat (length symbols)) 12) t in
  let '(selected_symbols, t) :=
    Random.choice (take (Z.to_nat num_results) symbols) t in
  match selected_symbols with
  | None => (None, t)
  | Some selected_symbols =>
      let '(results, t) := mock_stocks (chars selected_symbols) t in
      (Some [("stocks", MList (MDict <$> results));
             ("total_found", MInt (Z.of_nat (length results)));
             ("criteria_matched", MInt (Z.of_nat (size criteria)));
             ("generated_at", MStr (isoformat now))], t)
  end.

(** The integer fields of a mock stock lie in the ranges asked of
    [randint]. *)
Definition stock_in_range (stock : list (string * mockval)) : Prop :=
  ∃ volume market_cap score,
    mock_get "volume" stock = Some (MInt volume)
    ∧ mock_get "market_cap" stock = Some (MStr ("$" +:+ pretty market_cap +:+ "B"))
    ∧ mock_get "score" stock = Some (MInt score)
    ∧ 1000000 ≤ volume ≤ 50000000
    ∧ 100 ≤ market_cap ≤ 2000
    ∧ 60 ≤ score ≤ 95.

(** A password check for the examples. *)
Definition sample_check_password (user : User.t) (password : string) : bool :=
  bool_decide (password = "s3cret").

Definition login_post (email password : string) : LoginRequest :=
  MkLoginRequest POST true {["email" := email; "password" := password]} ∅.

(** ** Deleting a screening *)

Definition set_screenings (f : list StockScreening.t → list StockScreening.t)
    (d : DB) : DB :=
  {| users := users d; requests := requests d; screenings := f (screenings d) |}.

(** Modelled from the spec: [StockScreening.get(screening_id)] of the missing
    [models.py]; the spec has every operation a direct read or write of the
    relational store, so this is the read of the row with that id. *)
Definition StockScreening_get (screening_id : string) : M (option StockScreening.t) :=
  λ w, (Ok (table_get StockScreening.id screening_id (screenings (db w))), w).

(** Modelled from the spec: [StockScreening.delete(self)] of the missing
    [models.py], the direct delete of the row, made durable by the method
    since the view does not commit. *)
Definition StockScreening_delete (self : StockScreening.t) : M unit :=
  commit (set_screenings (table_delete StockScreening.id (StockScreening.id self))).

Definition delete_screening_body (ctx : Context) (screening_id : string)
    : M response :=
  screening ← StockScreening_get screening_id;
  match screening with
  | None => mret (Json [("error", JStr "Screening not found")] 404)
  | Some screening =>
      try_except
        (_ ← StockScreening_delete screening;
         mret (jsonify [("success", JBool true);
                        ("message", JStr ("Deleted screening "
                                          +:+ StockScreening.name screening))]))
        (λ e, mret (Json [("error", JStr (exn_str e))] 500))
  end.

Definition delete_screening := admin_required delete_screening_body.

Definition growth : StockScreening.t :=
  StockScreening.Build "s1" "Growth" "u0" "{}" "{}" t0 t0.
Definition value : StockScreening.t :=
  StockScreening.Build "s2" "Value" "u0" "{}" "{}" t1 t1.
Definition w_screenings : World :=
  MkWorld (MkDB [root; alice] [r1; r2; r3] [growth; value]) None t2 [].
Definition w_screenings_down : World :=
  MkWorld (MkDB [root; alice] [r1; r2; r3] [growth; value])
    (Some "connection lost") t2 [].

(** ** Reading the dashboard answer *)

Definition admin_data_field (key : string) (resp : result response) : option jval :=
  match resp with
  | Ok (RenderTemplate _ (Some admin_data)) => dict_get key admin_data
  | _ => None
  end.

Definition stats_field (key : string) (resp : result response) : option jval :=
  match admin_data_field "stats" resp with
  | Some stats => row_field key stats
  | None => None
  end.

(** ** Sequences of admin operations *)

Inductive admin_op :=
  | OpDashboard (ctx : Context)
  | OpUpdateSubscription (ctx : Context) (user_id : string)
  | OpAddSubscription (ctx : Context) (user_id : string)
  | OpRemoveSubscription (ctx : Context) (user_id : string)
  | OpDeleteUser (ctx : Context) (user_id : string)
  | OpDeleteScreening (ctx : Context) (screening_id : string)
  | OpApprove (ctx : Context) (request_id : string)
  | OpReject (ctx : Context) (request_id : string).

Definition run_op (o : admin_op) : M response :=
  match o with
  | OpDashboard ctx => dashboard ctx ()
  | OpUpdateSubscription ctx user_id => update_user_subscription ctx user_id
  | OpAddSubscription ctx user_id => add_user_subscription ctx user_id
  | OpRemoveSubscription ctx user_id => remove_user_subscription ctx user_id
  | OpDeleteUser ctx user_id => delete_user ctx user_id
  | OpDeleteScreening ctx screening_id => delete_screening ctx screening_id
  | OpApprove ctx request_id => approve_subscription_request ctx request_id
  | OpReject ctx request_id => reject_subscription_request ctx request_id
  end.

Definition run_ops (ops : list admin_op) (w : World) : World :=
  foldl (λ w o, (run_op o w).2) w ops.

(** The tier handed to [update_subscription] by an [add_user_subscription]
    call lies in the enumeration; the other operations need no such care. *)
Definition op_tier_checked (o : admin_op) : Prop :=
  match o with
  | OpAddSubscription ctx _ => default "medium" (get_json ctx !! "tier") ∈ tier_choices
  | _ => True
  end.

(** Every tier stored, as a user's tier or as a requested one, lies in the
    enumeration. *)
Definition tiers_valid (d : DB) : Prop :=
  Forall (λ u, User.subscription_tier u ∈ tier_choices) (users d)
  ∧ Forall (λ r, SubscriptionRequest.requested_tier r ∈ tier_choices) (requests d).

Global Instance op_tier_checked_dec o : Decision (op_tier_checked o).
Proof. destruct o; simpl; apply _. Defined.

Global Instance tiers_valid_dec d : Decision (tiers_valid d).
Proof. unfold tiers_valid. apply _. Defined.

(** The columns of a request no view writes. *)
Definition request_identity (r : SubscriptionRequest.t)
    : string * string * string * string * datetime :=
  (SubscriptionRequest.id r, SubscriptionRequest.user_id r,
   SubscriptionRequest.current_tier r, SubscriptionRequest.requested_tier r,
   SubscriptionRequest.created_at r).

Definition tier_ctx (tier : string) : Context :=
  MkContext (Some root) {["tier" := tier]}.

Definition sample_ops : list admin_op :=
  [OpApprove admin_ctx "r1"; OpUpdateSubscription (tier_ctx "medium") "u1";
   OpAddSubscription admin_ctx "u0"; OpReject admin_ctx "r2";
   OpDeleteUser admin_ctx "u1"; OpDeleteUser admin_ctx "u0";
   OpDeleteScreening admin_ctx "s1"; OpDashboard admin_ctx].


(** ** Counting resolutions *)

(** The answer of a view that went through: 200 with a JSON body. *)
Definition is_success (answer : result response) : bool :=
  match answer with
  | Ok (Json _ 200) => true
  | _ => false
  end.

(** The operation is an approval or a rejection of [request_id]. *)
Definition resolves (request_id : string) (o : admin_op) : bool :=
  match o with
  | OpApprove _ request_id' | OpReject _ request_id' =>
      bool_decide (request_id' = request_id)
  | _ => false
  end.

(** How many operations of the sequence are approvals or rejections of
    [request_id] that answer with success. *)
Fixpoint resolutions_of (request_id : string) (ops : list admin_op) (w : World)
    : nat :=
  match ops with
  | [] => 0
  | o :: ops' =>
      let out := run_op o w in
      ((if resolves request_id o && is_success out.1 then 1 else 0)
       + resolutions_of request_id ops' out.2)%nat
  end.

(** * Properties *)

(** ** Tables *)

Section table_facts.
Context {A : Type} (key : A → string).
Implicit Types (t : list A) (k : string) (f : A → A).

Lemma table_get_Some k t r :
  table_get key k t = Some r → key r = k ∧ r ∈ t.
Proof.
  induction t as [|r0 t IH]; simpl; [done|].
  case_decide as Hk.
  - intros [= ->]. split; [done | left].
  - intros Hget. destruct (IH Hget) as [? ?]. split; [done | by right].
Qed.


(** An update that keeps the primary key is seen by the lookup of that
    key and by no other. *)
Lemma table_get_update k k' f t :
  (∀ r, key (f r) = key r) →
  table_get key k' (table_update key k f t)
  = if decide (k = k') then f <$> table_get key k' t else table_get key k' t.
Proof.
  intros Hf. unfold table_update.
  induction t as [|r0 t IH]; [by case_decide|].
  rewrite fmap_cons. cbn [table_get].
  destruct (decide (key r0 = k)) as [Hr0|Hr0].
  - rewrite Hf. destruct (decide (key r0 = k')) as [Hk'|Hk'].
    + rewrite decide_True by congruence. done.
    + rewrite IH. done.
  - destruct (decide (key r0 = k')) as [Hk'|Hk'].
    + rewrite decide_False by congruence. done.
    + rewrite IH. done.
Qed.

Lemma table_get_update_eq k f t :
  (∀ r, key (f r) = key r) →
  table_get key k (table_update key k f t) = f <$> table_get key k t.
Proof. intros Hf. rewrite table_get_update by done. by rewrite decide_True. Qed.

Lemma table_get_update_ne k k' f t :
  (∀ r, key (f r) = key r) → k ≠ k' →
  table_get key k' (table_update key k f t) = table_get key k' t.
Proof. intros Hf Hne. rewrite table_get_update by done. by rewrite decide_False. Qed.
End table_facts.

Lemma set_subscription_tier_id tier u :
  User.id (User.set_subscription_tier tier u) = User.id u.
Proof. done. Qed.

Lemma resolve_id st now r :
  SubscriptionRequest.id (SubscriptionRequest.resolve st now r) = SubscriptionRequest.id r.
Proof. done. Qed.

(** ** The admin gate *)

Lemma admin_required_admin {A} (f : Context → A → M response) ctx arg :
  is_admin_session ctx = true → admin_required f ctx arg = f ctx arg.
Proof.
  unfold is_admin_session, admin_required.
  destruct (current_user ctx) as [u|]; [|done]. by intros ->.
Qed.

(** Whoever is not an admin changes nothing in the database. *)
Lemma admin_required_other {A} (f : Context → A → M response) ctx arg w :
  is_admin_session ctx = false →
  db (admin_required f ctx arg w).2 = db w.
Proof.
  unfold is_admin_session, admin_required.
  destruct (current_user ctx) as [u|]; [|done]. by intros ->.
Qed.

(** ** Unfolding the resolution views *)

(** Both views start with the same load and the same two guards. *)
Ltac unfold_resolution_views :=
  unfold approve_subscription_request_body, reject_subscription_request_body,
    mbind, M_bind, SubscriptionRequest_query_get.

Ltac unfold_resolution_methods :=
  unfold SubscriptionRequest_approve, SubscriptionRequest_reject,
    mbind, M_bind, utcnow, commit.

Lemma view_Approve : view Approve = approve_subscription_request.
Proof. reflexivity. Qed.

Lemma view_Reject : view Reject = reject_subscription_request.
Proof. reflexivity. Qed.

Lemma view_body_not_found v ctx request_id w :
  table_get SubscriptionRequest.id request_id (requests (db w)) = None →
  view_body v ctx request_id w = (Ok not_found, w).
Proof.
  intros Hget. destruct v; simpl;
    unfold_resolution_views; by rewrite Hget.
Qed.

Lemma view_body_processed v ctx request_id w r :
  table_get SubscriptionRequest.id request_id (requests (db w)) = Some r →
  SubscriptionRequest.status r ≠ "pending" →
  view_body v ctx request_id w = (Ok invalid_state, w).
Proof.
  intros Hget Hst. destruct v; simpl;
    unfold_resolution_views;
    rewrite Hget; by rewrite bool_decide_eq_true_2.
Qed.

(** C4: on an id that names no request, approve and reject answer 404 with
    the error [Request not found] and leave the whole store as it was: no
    request's status and no user's tier changes. *)
Theorem resolve_unknown_request_not_found ctx request_id w :
  is_admin_session ctx = true →
  table_get SubscriptionRequest.id request_id (requests (db w)) = None →
  approve_subscription_request ctx request_id w
    = (Ok (Json [("error", JStr "Request not found")] 404), w)
  ∧ reject_subscription_request ctx request_id w
    = (Ok (Json [("error", JStr "Request not found")] 404), w).
Proof.
  intros Hadm Hget.
  unfold approve_subscription_request, reject_subscription_request.
  rewrite !admin_required_admin by done.
  split.
  - apply (view_body_not_found Approve); done.
  - apply (view_body_not_found Reject); done.
Qed.

Lemma resolve_unknown_request_not_found_witness :
  approve_subscription_request admin_ctx "nonexistent" w0
    = (Ok (Json [("error", JStr "Request not found")] 404), w0)
  ∧ reject_subscription_request admin_ctx "nonexistent" w0
    = (Ok (Json [("error", JStr "Request not found")] 404), w0).
Proof.
  apply (resolve_unknown_request_not_found admin_ctx "nonexistent" w0);
    reflexivity.
Defined.

(** C10: for a user id that resolves to an admin user, [delete_user] answers
    403 with the error [Cannot delete admin users] and leaves the whole store
    as it was. *)
Theorem delete_user_spares_admins ctx user_id w u :
  is_admin_session ctx = true →
  table_get User.id user_id (users (db w)) = Some u →
  User.is_admin u = true →
  delete_user ctx user_id w
    = (Ok (Json [("error", JStr "Cannot delete admin users")] 403), w).
Proof.
  intros Hadm Hget Hu. unfold delete_user.
  rewrite admin_required_admin by done.
  unfold delete_user_body, mbind, M_bind, User_get.
  rewrite Hget, Hu. done.
Qed.

Lemma delete_user_spares_admins_witness :
  delete_user admin_ctx "u0" w0
    = (Ok (Json [("error", JStr "Cannot delete admin users")] 403), w0).
Proof.
  apply (delete_user_spares_admins admin_ctx "u0" w0 root); reflexivity.
Defined.

Lemma resolve_method_commits v r w :
  store_error w = None →
  resolve_method v r w = (Ok (), set_db (resolution_changes v r (clock w)) w).
Proof.
  intros Herr. destruct v; simpl;
    unfold_resolution_methods; by rewrite Herr.
Qed.

Lemma resolve_method_fails v r w msg :
  store_error w = Some msg →
  resolve_method v r w = (Raise (StoreFailure msg), w).
Proof.
  intros Herr. destruct v; simpl;
    unfold_resolution_methods; by rewrite Herr.
Qed.

(** A pending request and a working store: the view commits the resolution
    and answers from the user it finds afterwards. *)
Lemma view_body_pending v ctx request_id w r :
  store_error w = None →
  table_get SubscriptionRequest.id request_id (requests (db w)) = Some r →
  SubscriptionRequest.status r = "pending" →
  let w' := set_db (resolution_changes v r (clock w)) w in
  view_body v ctx request_id w
  = (resolution_answer v r
       (table_get User.id (SubscriptionRequest.user_id r) (users (db w'))), w').
Proof.
  intros Herr Hget Hst w'.
  pose proof (resolve_method_commits v r w Herr) as Hm.
  destruct v; simpl in *;
    unfold_resolution_views;
    rewrite Hget, bool_decide_eq_false_2 by (rewrite Hst; auto);
    rewrite Hm; unfold User_get; fold w';
    by destruct (table_get User.id _ _).
Qed.

(** A pending request and a failing store: the exception of the commit
    leaves the view. *)
Lemma view_body_store_failure v ctx request_id w r msg :
  store_error w = Some msg →
  table_get SubscriptionRequest.id request_id (requests (db w)) = Some r →
  SubscriptionRequest.status r = "pending" →
  view_body v ctx request_id w = (Raise (StoreFailure msg), w).
Proof.
  intros Herr Hget Hst.
  pose proof (resolve_method_fails v r w msg Herr) as Hm.
  destruct v; simpl in *;
    unfold_resolution_views;
    rewrite Hget, bool_decide_eq_false_2 by (rewrite Hst; auto);
    by rewrite Hm.
Qed.

(** What the resolution does to the two tables. *)
Lemma status_of_resolution v r now d request_id :
  table_get SubscriptionRequest.id request_id (requests d) = Some r →
  status_of request_id (resolution_changes v r now d)
  = Some (match v with Approve => "approved" | Reject => "rejected" end).
Proof.
  intros Hget. destruct (table_get_Some _ _ _ _ Hget) as [Hid _].
  unfold status_of. destruct v; simpl; rewrite Hid;
    rewrite table_get_update_eq by apply resolve_id; by rewrite Hget.
Qed.

Lemma status_of_resolution_other v r now d request_id :
  SubscriptionRequest.id r ≠ request_id →
  status_of request_id (resolution_changes v r now d) = status_of request_id d.
Proof.
  intros Hne. unfold status_of. destruct v; simpl;
    by rewrite table_get_update_ne by (apply resolve_id || done).
Qed.

Lemma users_of_rejection r now d :
  users (resolution_changes Reject r now d) = users d.
Proof. done. Qed.

Lemma user_after_approval r now d :
  table_get User.id (SubscriptionRequest.user_id r)
    (users (resolution_changes Approve r now d))
  = User.set_subscription_tier (SubscriptionRequest.requested_tier r)
    <$> table_get User.id (SubscriptionRequest.user_id r) (users d).
Proof. simpl. by rewrite table_get_update_eq by apply set_subscription_tier_id. Qed.

(** C1: for a request that exists and is pending, approve sets its status to
    [approved] and applies its [requested_tier] to the referenced user, whose
    tier afterwards equals [requested_tier]; the answer is the success payload
    naming the user's email and the tier.  (Called by an admin, the store
    accepting the commit.) *)
Theorem approve_applies_requested_tier ctx request_id w r :
  is_admin_session ctx = true →
  store_error w = None →
  table_get SubscriptionRequest.id request_id (requests (db w)) = Some r →
  SubscriptionRequest.status r = "pending" →
  let out := approve_subscription_request ctx request_id w in
  status_of request_id (db out.2) = Some "approved"
  ∧ ∀ u, table_get User.id (SubscriptionRequest.user_id r) (users (db w)) = Some u →
      tier_of (SubscriptionRequest.user_id r) (db out.2)
        = Some (SubscriptionRequest.requested_tier r)
      ∧ out.1 = Ok (Json [("success", JBool true);
                          ("message", JStr ("Approved " +:+ User.email u
                             +:+ "'s upgrade to "
                             +:+ SubscriptionRequest.requested_tier r))] 200).
Proof.
  intros Hadm Herr Hget Hst out. subst out.
  unfold approve_subscription_request.
  rewrite admin_required_admin by done.
  pose proof (view_body_pending Approve ctx request_id w r Herr Hget Hst) as Hv.
  cbn [view_body] in Hv. rewrite Hv.
  cbn [fst snd]. split.
  - apply (status_of_resolution Approve); done.
  - intros u Hu. unfold tier_of. cbn [db set_db].
    rewrite user_after_approval, Hu. done.
Qed.

Lemma approve_applies_requested_tier_witness :
  let out := approve_subscription_request admin_ctx "r1" w0 in
  status_of "r1" (db out.2) = Some "approved"
  ∧ ∀ u, table_get User.id "u1" (users (db w0)) = Some u →
      tier_of "u1" (db out.2) = Some "pro"
      ∧ out.1 = Ok (Json [("success", JBool true);
                          ("message", JStr ("Approved " +:+ User.email u
                             +:+ "'s upgrade to " +:+ "pro"))] 200).
Proof.
  apply (approve_applies_requested_tier admin_ctx "r1" w0 r1); reflexivity.
Defined.

(** C3: for a request that exists and is pending, reject sets its status to
    [rejected] and leaves the user table, hence the referenced user's tier,
    as it was before the call; if the tier was the request's [current_tier],
    it still is. *)
Theorem reject_keeps_tier ctx request_id w r :
  is_admin_session ctx = true →
  store_error w = None →
  table_get SubscriptionRequest.id request_id (requests (db w)) = Some r →
  SubscriptionRequest.status r = "pending" →
  let out := reject_subscription_request ctx request_id w in
  status_of request_id (db out.2) = Some "rejected"
  ∧ users (db out.2) = users (db w)
  ∧ tier_of (SubscriptionRequest.user_id r) (db out.2)
    = tier_of (SubscriptionRequest.user_id r) (db w)
  ∧ (tier_of (SubscriptionRequest.user_id r) (db w)
       = Some (SubscriptionRequest.current_tier r) →
     tier_of (SubscriptionRequest.user_id r) (db out.2)
       = Some (SubscriptionRequest.current_tier r)).
Proof.
  intros Hadm Herr Hget Hst out. subst out.
  unfold reject_subscription_request.
  rewrite admin_required_admin by done.
  pose proof (view_body_pending Reject ctx request_id w r Herr Hget Hst) as Hv.
  cbn [view_body] in Hv. rewrite Hv.
  cbn [fst snd]. split; [|split; [|split]].
  - apply (status_of_resolution Reject); done.
  - done.
  - done.
  - done.
Qed.

Lemma reject_keeps_tier_witness :
  let out := reject_subscription_request admin_ctx "r1" w0 in
  status_of "r1" (db out.2) = Some "rejected"
  ∧ users (db out.2) = users (db w0)
  ∧ tier_of "u1" (db out.2) = tier_of "u1" (db w0)
  ∧ (tier_of "u1" (db w0) = Some "free" → tier_of "u1" (db out.2) = Some "free").
Proof.
  apply (reject_keeps_tier admin_ctx "r1" w0 r1); reflexivity.
Defined.

(** ** Terminal states are final *)






(** ** The pending listing of the dashboard *)

Global Instance datetime_le_total : Total datetime_le.
Proof.
  intros a b. unfold datetime_le.
  destruct (decide (datetime_lt b a)) as [Hba|Hba]; [right | by left].
  intros Hab. unfold datetime_lt in *.
  by apply (strict_anti_symm (R:=lexico) (datetime_key a) (datetime_key b)).
Qed.

Global Instance datetime_le_trans : Transitive datetime_le.
Proof.
  intros a b c Hab Hbc Hca. unfold datetime_le, datetime_lt in *.
  destruct (trichotomy lexico (datetime_key a) (datetime_key b))
    as [Hlt|[Heq|Hgt]].
  - apply Hbc. by trans (datetime_key a).
  - apply Hbc. by rewrite <- Heq.
  - by apply Hab.
Qed.

Global Instance created_le_total : Total created_le.
Proof. intros r1 r2. apply (total datetime_le). Qed.

Global Instance created_le_trans : Transitive created_le.
Proof. intros r1 r2 r3. unfold created_le. apply transitivity. Qed.

(** The loop only reads: it appends one row per request, in order. *)
Lemma for_append_request_rows (l : list SubscriptionRequest.t) w :
  for_append request_loop_body l w
  = (Ok ((λ r, request_row
                 (table_get User.id (SubscriptionRequest.user_id r) (users (db w))) r)
         <$> l), w).
Proof.
  induction l as [|r l IH]; [done|].
  cbn [for_append]. unfold mbind, M_bind in *.
  unfold request_loop_body at 1, mbind, M_bind, User_get.
  cbn [mret M_ret]. by rewrite IH.
Qed.

(** C5: the dashboard lists exactly the requests whose status is [pending],
    by creation time ascending, one row per request in that order; a row
    carries the email and full name of the referenced user, or [Unknown] for
    both when there is no such user, and the listing is rendered all the
    same. *)
Theorem dashboard_lists_pending ctx w :
  is_admin_session ctx = true →
  ∃ (pending : list SubscriptionRequest.t) (rows : list jval) admin_data,
    dashboard ctx () w = (Ok (RenderTemplate "spa.html" (Some admin_data)), w)
    ∧ dict_get "subscription_requests" admin_data = Some (JList rows)
    ∧ pending ≡ₚ filter is_pending (requests (db w))
    ∧ (∀ r, r ∈ pending
            ↔ r ∈ requests (db w) ∧ SubscriptionRequest.status r = "pending")
    ∧ StronglySorted created_le pending
    ∧ length rows = length pending
    ∧ ∀ i r, pending !! i = Some r →
        ∃ row, rows !! i = Some row
          ∧ row_field "id" row = Some (JStr (SubscriptionRequest.id r))
          ∧ match table_get User.id (SubscriptionRequest.user_id r) (users (db w)) with
            | Some u =>
                row_field "user_email" row = Some (JStr (User.email u))
                ∧ row_field "user_name" row = Some (JStr (User.full_name u))
            | None =>
                row_field "user_email" row = Some (JStr "Unknown")
                ∧ row_field "user_name" row = Some (JStr "Unknown")
            end.
Proof.
  intros Hadm. unfold dashboard.
  rewrite admin_required_admin by done.
  unfold dashboard_body, mbind, M_bind, User_get_all_users,
    StockScreening_get_all, SubscriptionRequest_get_pending.
  rewrite for_append_request_rows.
  set (pending := merge_sort created_le (filter is_pending (requests (db w)))).
  assert (Hperm : pending ≡ₚ filter is_pending (requests (db w)))
    by apply merge_sort_Permutation.
  eexists pending, _, _. split; [reflexivity|].
  split; [reflexivity|]. split; [done|]. split; [|split; [|split]].
  - intros r. rewrite Hperm, list_elem_of_filter. unfold is_pending. tauto.
  - apply StronglySorted_merge_sort; apply _.
  - by rewrite length_fmap.
  - intros i r Hi. eexists. rewrite list_lookup_fmap, Hi. split; [reflexivity|].
    split; [reflexivity|].
    by destruct (table_get User.id _ _).
Qed.

Lemma dashboard_lists_pending_witness :
  ∃ (pending : list SubscriptionRequest.t) (rows : list jval) admin_data,
    dashboard admin_ctx () w0 = (Ok (RenderTemplate "spa.html" (Some admin_data)), w0)
    ∧ dict_get "subscription_requests" admin_data = Some (JList rows)
    ∧ pending ≡ₚ filter is_pending (requests (db w0))
    ∧ (∀ r, r ∈ pending
            ↔ r ∈ requests (db w0) ∧ SubscriptionRequest.status r = "pending")
    ∧ StronglySorted created_le pending
    ∧ length rows = length pending
    ∧ ∀ i r, pending !! i = Some r →
        ∃ row, rows !! i = Some row
          ∧ row_field "id" row = Some (JStr (SubscriptionRequest.id r))
          ∧ match table_get User.id (SubscriptionRequest.user_id r) (users (db w0)) with
            | Some u =>
                row_field "user_email" row = Some (JStr (User.email u))
                ∧ row_field "user_name" row = Some (JStr (User.full_name u))
            | None =>
                row_field "user_email" row = Some (JStr "Unknown")
                ∧ row_field "user_name" row = Some (JStr "Unknown")
            end.
Proof. apply (dashboard_lists_pending admin_ctx w0). reflexivity. Defined.

Example strftime_small_year :
  strftime_ymd_hm (Datetime 999 1 2 3 4 5 0) = "999-01-02 03:04"
  ∧ isoformat (Datetime 999 1 2 3 4 5 0) = "0999-01-02T03:04:05".
Proof. split; reflexivity. Qed.

Example dashboard_rows_w0 :
  ∃ stats, dashboard admin_ctx () w0
  = (Ok (RenderTemplate "spa.html"
       (Some [("stats", stats); ("screenings", JList []);
              ("subscription_requests",
               JList [request_row None r2; request_row (Some alice) r1])])), w0).
Proof. eexists. vm_compute. reflexivity. Qed.

(** ** Overlapping resolution calls *)

(** The statement-by-statement run of a call, left alone, is the view. *)
Lemma run_alone_view_body v ctx request_id w :
  run_alone v request_id w
  = (Finished (view_body v ctx request_id w).1, (view_body v ctx request_id w).2).
Proof.
  unfold run_alone. cbn [step].
  unfold SubscriptionRequest_query_get.
  destruct (table_get SubscriptionRequest.id request_id (requests (db w)))
    as [r|] eqn:Hget; cbn [step];
    [|by rewrite view_body_not_found].
  destruct (decide (SubscriptionRequest.status r = "pending")) as [Hpend|Hproc].
  - rewrite bool_decide_eq_false_2 by (rewrite Hpend; auto). cbn [step].
    destruct (store_error w) as [msg|] eqn:Herr.
    + rewrite (resolve_method_fails v r w msg) by done. cbn [step].
      by rewrite (view_body_store_failure v ctx request_id w r msg).
    + rewrite resolve_method_commits by done. cbn [step].
      rewrite (view_body_pending v ctx request_id w r) by done.
      unfold mbind, M_bind, User_get.
      by destruct (table_get User.id _ _).
  - rewrite bool_decide_eq_true_2 by done. cbn [step].
    by rewrite (view_body_processed v ctx request_id w r).
Qed.

Lemma step_finished v request_id answer w :
  step v request_id (Finished answer) w = (Finished answer, w).
Proof. done. Qed.

(** Under the serial schedule the second call starts in the store the first
    one left. *)
Lemma run_schedule_serial c1 c2 w :
  run_schedule c1 c2 serial w
  = {| call1 := (run_alone c1.1 c1.2 w).1;
       call2 := (run_alone c2.1 c2.2 (run_alone c1.1 c1.2 w).2).1;
       world := (run_alone c2.1 c2.2 (run_alone c1.1 c1.2 w).2).2 |}.
Proof.
  unfold run_schedule, serial, run_alone. cbn [replicate app foldl].
  unfold sched_step. cbn [call1 call2 world].
  destruct (step c1.1 c1.2 Start w) as [p1 w1]. cbn [call1 call2 world].
  destruct (step c1.1 c1.2 p1 w1) as [p2 w2]. cbn [call1 call2 world].
  destruct (step c1.1 c1.2 p2 w2) as [p3 w3]. cbn [call1 call2 world].
  destruct (step c1.1 c1.2 p3 w3) as [p4 w4]. cbn [call1 call2 world fst snd].
  destruct (step c2.1 c2.2 Start w4) as [q1 x1]. cbn [call1 call2 world].
  destruct (step c2.1 c2.2 q1 x1) as [q2 x2]. cbn [call1 call2 world].
  destruct (step c2.1 c2.2 q2 x2) as [q3 x3]. cbn [call1 call2 world].
  destruct (step c2.1 c2.2 q3 x3) as [q4 x4]. done.
Qed.

(** C6, as the code has it: approve and reject read the status and write it
    in separate statements, with no compare-and-set.  When two calls on the
    same pending request run one after the other, exactly one succeeds, the
    other reports InvalidState, and the store holds the resolution of the
    first call only. *)
Theorem serial_calls_resolve_once v1 v2 request_id w r u :
  store_error w = None →
  table_get SubscriptionRequest.id request_id (requests (db w)) = Some r →
  SubscriptionRequest.status r = "pending" →
  table_get User.id (SubscriptionRequest.user_id r) (users (db w)) = Some u →
  let s := run_schedule (v1, request_id) (v2, request_id) serial w in
  call1 s = Finished (Ok (success v1 (User.email u) r))
  ∧ call2 s = Finished (Ok invalid_state)
  ∧ exactly_one_succeeds s
  ∧ db (world s) = resolution_changes v1 r (clock w) (db w).
Proof.
  intros Herr Hget Hpend Hu s.
  assert (Hs : s = {| call1 := Finished (Ok (success v1 (User.email u) r));
                      call2 := Finished (Ok invalid_state);
                      world := set_db (resolution_changes v1 r (clock w)) w |}).
  { subst s. rewrite run_schedule_serial. cbn [fst snd].
    rewrite (run_alone_view_body v1 (MkContext None ∅)).
    rewrite (view_body_pending v1 _ request_id w r) by done.
    cbn [fst snd].
    set (w' := set_db (resolution_changes v1 r (clock w)) w).
    assert (Hanswer : resolution_answer v1 r
              (table_get User.id (SubscriptionRequest.user_id r) (users (db w')))
            = Ok (success v1 (User.email u) r)).
    { subst w'. cbn [db set_db]. destruct v1.
      - by rewrite user_after_approval, Hu.
      - by rewrite users_of_rejection, Hu. }
    rewrite Hanswer.
    rewrite (run_alone_view_body v2 (MkContext None ∅)).
    pose proof (status_of_resolution v1 r (clock w) (db w) request_id Hget) as Hst.
    unfold status_of in Hst.
    destruct (table_get SubscriptionRequest.id request_id
                (requests (resolution_changes v1 r (clock w) (db w))))
      as [r'|] eqn:Hget'; [|by destruct v1].
    rewrite (view_body_processed v2 _ request_id w' r'); [done|exact Hget'|].
    destruct v1; simpl in Hst; congruence. }
  rewrite Hs. cbn [call1 call2 world db set_db].
  split; [done|]. split; [done|]. split; [|done].
  left. eexists. split; reflexivity.
Qed.

Lemma serial_calls_resolve_once_witness :
  let s := run_schedule (Approve, "r1") (Reject, "r1") serial w0 in
  call1 s = Finished (Ok (success Approve "alice@example.com" r1))
  ∧ call2 s = Finished (Ok invalid_state)
  ∧ exactly_one_succeeds s
  ∧ db (world s) = resolution_changes Approve r1 t2 db0.
Proof.
  apply (serial_calls_resolve_once Approve Reject "r1" w0 r1 alice); reflexivity.
Defined.

(** C6 as claimed fails: when both calls load the pending request before
    either resolves it, both pass the status check and both report success;
    none reports InvalidState, and the store ends with the request rejected
    and the user upgraded. *)
Lemma overlapped_calls_both_succeed :
  let s := run_schedule (Approve, "r1") (Reject, "r1") overlapped w0 in
  status_of "r1" db0 = Some "pending"
  ∧ call1 s = Finished (Ok (success Approve "alice@example.com" r1))
  ∧ call2 s = Finished (Ok (success Reject "alice@example.com" r1))
  ∧ ¬ exactly_one_succeeds s
  ∧ status_of "r1" (db (world s)) = Some "rejected"
  ∧ tier_of "u1" (db (world s)) = Some "pro".
Proof.
  cbv zeta. split; [reflexivity|]. split; [reflexivity|]. split; [reflexivity|].
  split; [|split; reflexivity].
  intros [[body [_ H2]]|[body [_ H1]]]; vm_compute in H1 || vm_compute in H2;
    discriminate.
Qed.

(** ** Failures of the store and of the user lookup *)

(** C7 fails on the code: with the store refusing the commit, approve and
    reject on the pending request [r1] let the exception leave the view;
    there is no answer carrying the error message and no rollback, where
    [delete_user] in the same state catches the exception, rolls back and
    answers 500 with the message. *)
Theorem store_failure_escapes_resolution :
  store_error w_down = Some "connection lost"
  ∧ status_of "r1" (db w_down) = Some "pending"
  ∧ approve_subscription_request admin_ctx "r1" w_down
    = (Raise (StoreFailure "connection lost"), w_down)
  ∧ reject_subscription_request admin_ctx "r1" w_down
    = (Raise (StoreFailure "connection lost"), w_down)
  ∧ delete_user admin_ctx "u1" w_down
    = (Ok (Json [("error", JStr "connection lost")] 500), w_down).
Proof. repeat split; reflexivity. Qed.

(** Whatever the request and the store, the resolution views answer 200, 400
    or 404 when they answer at all: a 500 is never built by them. *)
Lemma view_body_status_codes v ctx request_id w body code :
  (view_body v ctx request_id w).1 = Ok (Json body code) →
  code = 200 ∨ code = 400 ∨ code = 404.
Proof.
  destruct (table_get SubscriptionRequest.id request_id (requests (db w)))
    as [r|] eqn:Hget.
  - destruct (decide (SubscriptionRequest.status r = "pending")) as [Hpend|Hproc].
    + destruct (store_error w) as [msg|] eqn:Herr.
      * by rewrite (view_body_store_failure v ctx request_id w r msg).
      * rewrite (view_body_pending v ctx request_id w r) by done.
        cbn [fst]. destruct (table_get User.id _ _); simpl; [|done].
        intros [= <- <-]. by left.
    + rewrite (view_body_processed v ctx request_id w r) by done.
      intros [= <- <-]. right. by left.
  - rewrite view_body_not_found by done.
    intros [= <- <-]. right. by right.
Qed.

(** C8 fails on the code: the pending request [r2] references the user [u9],
    who is not in the store.  Approve and reject resolve the request and then
    read [user.email] of [None]: an [AttributeError] leaves the view, where
    the claim has NotFound and no unhandled error. *)
Theorem missing_user_escapes_resolution :
  table_get User.id (SubscriptionRequest.user_id r2) (users (db w0)) = None
  ∧ status_of "r2" (db w0) = Some "pending"
  ∧ (approve_subscription_request admin_ctx "r2" w0).1
    = Raise (AttributeError "'NoneType' object has no attribute 'email'")
  ∧ status_of "r2" (db (approve_subscription_request admin_ctx "r2" w0).2)
    = Some "approved"
  ∧ (reject_subscription_request admin_ctx "r2" w0).1
    = Raise (AttributeError "'NoneType' object has no attribute 'email'")
  ∧ status_of "r2" (db (reject_subscription_request admin_ctx "r2" w0).2)
    = Some "rejected".
Proof. repeat split; reflexivity. Qed.


(** With the referenced user in the store, the success payloads do name the
    user's email, and for approve the tier. *)
Lemma resolution_names_user v ctx request_id w r u :
  store_error w = None →
  table_get SubscriptionRequest.id request_id (requests (db w)) = Some r →
  SubscriptionRequest.status r = "pending" →
  table_get User.id (SubscriptionRequest.user_id r) (users (db w)) = Some u →
  (view_body v ctx request_id w).1 = Ok (success v (User.email u) r).
Proof.
  intros Herr Hget Hpend Hu.
  rewrite (view_body_pending v ctx request_id w r) by done.
  cbn [fst db set_db]. destruct v.
  - by rewrite user_after_approval, Hu.
  - by rewrite users_of_rejection, Hu.
Qed.

(** ** Tier assignments *)

(** C9 fails on the code: [add_user_subscription] hands whatever tier the
    body names to [update_subscription].  For the tier [gold] it answers 200
    and the user's tier is [gold], where [update_user_subscription] on the
    same input answers 400 and changes nothing. *)
Theorem add_subscription_accepts_any_tier :
  ("gold" ∉ tier_choices)
  ∧ (add_user_subscription gold_ctx "u1" w0).1
    = Ok (Json [("success", JBool true);
                ("message", JStr "Added gold subscription to alice@example.com")] 200)
  ∧ tier_of "u1" (db (add_user_subscription gold_ctx "u1" w0).2) = Some "gold"
  ∧ update_user_subscription gold_ctx "u1" w0
    = (Ok (Json [("error", JStr "Invalid data")] 400), w0).
Proof.
  split; [|repeat split; reflexivity].
  unfold tier_choices. rewrite !not_elem_of_cons. repeat split; try discriminate.
  apply not_elem_of_nil.
Qed.

(** [update_user_subscription] changes the store only by assigning one of
    the three tiers. *)
Lemma update_user_subscription_tier ctx user_id w :
  (update_user_subscription ctx user_id w).2 = w
  ∨ db (update_user_subscription ctx user_id w).2 = db w
  ∨ ∃ tier, tier ∈ tier_choices
      ∧ db (update_user_subscription ctx user_id w).2 = assign_tier user_id tier (db w).
Proof.
  unfold update_user_subscription.
  destruct (is_admin_session ctx) eqn:Hadm;
    [|right; left; by apply admin_required_other].
  rewrite admin_required_admin by done.
  unfold update_user_subscription_body.
  destruct (get_json ctx !! "tier") as [tier|]; [|by left].
  destruct (bool_decide (user_id = "")); [by left|]. cbn [orb].
  destruct (decide (tier ∈ tier_choices)) as [Hin|Hout].
  - rewrite bool_decide_eq_false_2 by auto.
    unfold mbind, M_bind, User_get.
    destruct (table_get User.id user_id (users (db w))) as [u|] eqn:Hu;
      [|by left].
    destruct (table_get_Some _ _ _ _ Hu) as [Hid _].
    unfold User_update_subscription, commit.
    destruct (store_error w); [by left|].
    right; right. exists tier. by rewrite Hid.
  - rewrite bool_decide_eq_true_2 by done. by left.
Qed.

(** [remove_user_subscription] changes the store only by assigning [free]. *)
Lemma remove_user_subscription_tier ctx user_id w :
  (remove_user_subscription ctx user_id w).2 = w
  ∨ db (remove_user_subscription ctx user_id w).2 = db w
  ∨ db (remove_user_subscription ctx user_id w).2 = assign_tier user_id "free" (db w).
Proof.
  unfold remove_user_subscription.
  destruct (is_admin_session ctx) eqn:Hadm;
    [|right; left; by apply admin_required_other].
  rewrite admin_required_admin by done.
  unfold remove_user_subscription_body, mbind, M_bind, User_get.
  destruct (table_get User.id user_id (users (db w))) as [u|] eqn:Hu;
    [|by left].
  destruct (table_get_Some _ _ _ _ Hu) as [Hid _].
  unfold User_update_subscription, commit.
  destruct (store_error w); [by left|].
  right; right. by rewrite Hid.
Qed.

(** * Further properties of the views *)

(** ** Deleting rows *)

Lemma table_get_delete {A} (key : A → string) k k' (t : list A) :
  table_get key k' (table_delete key k t)
  = if decide (k = k') then None else table_get key k' t.
Proof.
  unfold table_delete. induction t as [|r0 t IH]; [by case_decide|].
  rewrite filter_cons. destruct (decide (key r0 ≠ k)) as [Hne|Heq].
  - cbn [table_get]. rewrite IH.
    destruct (decide (key r0 = k')) as [Hk'|Hk']; [|done].
    by rewrite decide_False by congruence.
  - apply dec_stable in Heq. rewrite IH. cbn [table_get].
    destruct (decide (k = k')) as [Hkk|Hkk]; [done|].
    by rewrite decide_False by congruence.
Qed.

(** ** The gate, for every decorated view *)

Lemma admin_required_redirects {A} (f : Context → A → M response) ctx arg w :
  is_admin_session ctx = false →
  admin_required f ctx arg w
  = (Ok (Redirect "admin.admin_login"),
     {| db := db w; store_error := store_error w; clock := clock w;
        flashes := flashes w ++ [("Admin access required.", "error")] |}).
Proof.
  unfold is_admin_session, admin_required.
  destruct (current_user ctx) as [u|]; [|done]. by intros ->.
Qed.

(** Whatever the view, a caller who is not an authenticated admin is
    redirected to the admin login with the flash [Admin access required.];
    the view does not run and nothing else in the world changes. *)
Theorem admin_required_refuses_others {A} (f : Context → A → M response) ctx arg w :
  is_admin_session ctx = false →
  admin_required f ctx arg w
  = (Ok (Redirect "admin.admin_login"),
     {| db := db w; store_error := store_error w; clock := clock w;
        flashes := flashes w ++ [("Admin access required.", "error")] |}).
Proof.
  intros Hother. unfold admin_required.
  destruct (current_user ctx) as [u|] eqn:Hcu; [|done].
  unfold is_admin_session in Hother. rewrite Hcu in Hother.
  by rewrite Hother.
Qed.

Lemma admin_required_refuses_others_witness :
  delete_user (MkContext (Some alice) ∅) "u1" w0
  = (Ok (Redirect "admin.admin_login"),
     {| db := db w0; store_error := store_error w0; clock := clock w0;
        flashes := flashes w0 ++ [("Admin access required.", "error")] |}).
Proof.
  apply (admin_required_refuses_others delete_user_body
           (MkContext (Some alice) ∅) "u1" w0).
  reflexivity.
Defined.

(** ** [delete_user] *)

(** A user who is not an admin is deleted: the answer names the email, the
    id no longer resolves, every other user and every request stays. *)
Theorem delete_user_removes_user ctx user_id w u :
  is_admin_session ctx = true →
  store_error w = None →
  table_get User.id user_id (users (db w)) = Some u →
  User.is_admin u = false →
  let out := delete_user ctx user_id w in
  out.1 = Ok (Json [("success", JBool true);
                    ("message", JStr ("Deleted user " +:+ User.email u))] 200)
  ∧ table_get User.id user_id (users (db out.2)) = None
  ∧ (∀ k, k ≠ user_id →
       table_get User.id k (users (db out.2)) = table_get User.id k (users (db w)))
  ∧ requests (db out.2) = requests (db w).
Proof.
  intros Hadm Herr Hget Hu out. subst out. unfold delete_user.
  rewrite admin_required_admin by done.
  destruct (table_get_Some _ _ _ _ Hget) as [Hid _].
  unfold delete_user_body, mbind, M_bind, User_get.
  rewrite Hget, Hu. unfold try_except, session_delete_commit, commit.
  rewrite Herr. cbn [fst snd db set_db set_users users requests mret M_ret].
  rewrite Hid. split; [done|]. split; [|split; [|done]].
  - rewrite table_get_delete. by rewrite decide_True.
  - intros k Hk. rewrite table_get_delete. by rewrite decide_False.
Qed.

Lemma delete_user_removes_user_witness :
  let out := delete_user admin_ctx "u1" w0 in
  out.1 = Ok (Json [("success", JBool true);
                    ("message", JStr ("Deleted user " +:+ User.email alice))] 200)
  ∧ table_get User.id "u1" (users (db out.2)) = None
  ∧ (∀ k, k ≠ "u1" →
       table_get User.id k (users (db out.2)) = table_get User.id k (users (db w0)))
  ∧ requests (db out.2) = requests (db w0).
Proof.
  apply (delete_user_removes_user admin_ctx "u1" w0 alice); reflexivity.
Defined.

(** When the store refuses the commit, [delete_user] catches the exception
    and answers 500 with its message; the world is as before. *)
Theorem delete_user_reports_store_failure ctx user_id w u msg :
  is_admin_session ctx = true →
  store_error w = Some msg →
  table_get User.id user_id (users (db w)) = Some u →
  User.is_admin u = false →
  delete_user ctx user_id w = (Ok (Json [("error", JStr msg)] 500), w).
Proof.
  intros Hadm Herr Hget Hu. unfold delete_user.
  rewrite admin_required_admin by done.
  unfold delete_user_body, mbind, M_bind, User_get.
  rewrite Hget, Hu. unfold try_except, session_delete_commit, commit.
  by rewrite Herr.
Qed.

Lemma delete_user_reports_store_failure_witness :
  delete_user admin_ctx "u1" w_down
  = (Ok (Json [("error", JStr "connection lost")] 500), w_down).
Proof.
  apply (delete_user_reports_store_failure admin_ctx "u1" w_down alice);
    reflexivity.
Defined.

(** ** The subscription views *)

(** What [update_user_subscription] does once past the gate. *)
Lemma update_user_subscription_body_valid ctx user_id w tier :
  get_json ctx !! "tier" = Some tier →
  tier ∈ tier_choices →
  user_id ≠ "" →
  update_user_subscription_body ctx user_id w
  = match table_get User.id user_id (users (db w)) with
    | None => (Ok (Json [("error", JStr "User not found")] 404), w)
    | Some u =>
        match store_error w with
        | Some msg => (Raise (StoreFailure msg), w)
        | None =>
            (Ok (Json [("success", JBool true);
                       ("message", JStr ("Updated " +:+ User.email u +:+ " to "
                                         +:+ tier +:+ " tier"))] 200),
             set_db (assign_tier user_id tier) w)
        end
    end.
Proof.
  intros Htier Hin Hid. unfold update_user_subscription_body.
  rewrite Htier, bool_decide_eq_false_2, bool_decide_eq_false_2 by auto.
  cbn [orb]. unfold mbind, M_bind, User_get.
  destruct (table_get User.id user_id (users (db w))) as [u|] eqn:Hu; [|done].
  destruct (table_get_Some _ _ _ _ Hu) as [Hkey _].
  unfold User_update_subscription, commit. rewrite Hkey.
  by destruct (store_error w).
Qed.

Lemma add_user_subscription_body_eq ctx user_id w :
  add_user_subscription_body ctx user_id w
  = let tier := default "medium" (get_json ctx !! "tier") in
    match table_get User.id user_id (users (db w)) with
    | None => (Ok (Json [("error", JStr "User not found")] 404), w)
    | Some u =>
        match store_error w with
        | Some msg => (Raise (StoreFailure msg), w)
        | None =>
            (Ok (Json [("success", JBool true);
                       ("message", JStr ("Added " +:+ tier +:+ " subscription to "
                                         +:+ User.email u))] 200),
             set_db (assign_tier user_id tier) w)
        end
    end.
Proof.
  unfold add_user_subscription_body, mbind, M_bind, User_get. cbv zeta.
  destruct (table_get User.id user_id (users (db w))) as [u|] eqn:Hu; [|done].
  destruct (table_get_Some _ _ _ _ Hu) as [Hkey _].
  unfold User_update_subscription, commit. rewrite Hkey.
  by destruct (store_error w).
Qed.

Lemma remove_user_subscription_body_eq ctx user_id w :
  remove_user_subscription_body ctx user_id w
  = match table_get User.id user_id (users (db w)) with
    | None => (Ok (Json [("error", JStr "User not found")] 404), w)
    | Some u =>
        match store_error w with
        | Some msg => (Raise (StoreFailure msg), w)
        | None =>
            (Ok (Json [("success", JBool true);
                       ("message", JStr ("Removed subscription from " +:+ User.email u
                                         +:+ " (now free tier)"))] 200),
             set_db (assign_tier user_id "free") w)
        end
    end.
Proof.
  unfold remove_user_subscription_body, mbind, M_bind, User_get.
  destruct (table_get User.id user_id (users (db w))) as [u|] eqn:Hu; [|done].
  destruct (table_get_Some _ _ _ _ Hu) as [Hkey _].
  unfold User_update_subscription, commit. rewrite Hkey.
  by destruct (store_error w).
Qed.

Lemma tier_of_assign_tier user_id tier d k :
  tier_of k (assign_tier user_id tier d)
  = if decide (user_id = k)
    then (λ _, tier) <$> tier_of k d
    else tier_of k d.
Proof.
  unfold tier_of, assign_tier. cbn [users set_users].
  rewrite table_get_update by apply set_subscription_tier_id.
  case_decide; [|done]. by destruct (table_get User.id k (users d)).
Qed.

(** An id that names no user: [delete_user] and [remove_user_subscription],
    which do not read the body, answer 404 with [User not found] and leave
    the world as it was; so does [add_user_subscription] on a body that
    names a tier, and [update_user_subscription] when that tier has passed
    its check. *)
Theorem unknown_user_not_found ctx user_id w :
  is_admin_session ctx = true →
  table_get User.id user_id (users (db w)) = None →
  delete_user ctx user_id w = (Ok (Json [("error", JStr "User not found")] 404), w)
  ∧ remove_user_subscription ctx user_id w
    = (Ok (Json [("error", JStr "User not found")] 404), w)
  ∧ ∀ tier, get_json ctx !! "tier" = Some tier →
      add_user_subscription ctx user_id w
      = (Ok (Json [("error", JStr "User not found")] 404), w)
      ∧ (tier ∈ tier_choices → user_id ≠ "" →
         update_user_subscription ctx user_id w
         = (Ok (Json [("error", JStr "User not found")] 404), w)).
Proof.
  intros Hadm Hget.
  unfold delete_user, add_user_subscription, remove_user_subscription,
    update_user_subscription.
  rewrite !admin_required_admin by done.
  rewrite add_user_subscription_body_eq, remove_user_subscription_body_eq.
  cbv zeta. rewrite Hget. split; [|split; [done|]].
  - unfold delete_user_body, mbind, M_bind, User_get. by rewrite Hget.
  - intros tier Htier. split; [done|]. intros Hin Hne.
    rewrite (update_user_subscription_body_valid ctx user_id w tier) by done.
    by rewrite Hget.
Qed.

Lemma unknown_user_not_found_witness :
  delete_user (tier_ctx "pro") "u7" w0
  = (Ok (Json [("error", JStr "User not found")] 404), w0)
  ∧ remove_user_subscription (tier_ctx "pro") "u7" w0
    = (Ok (Json [("error", JStr "User not found")] 404), w0)
  ∧ ∀ tier, get_json (tier_ctx "pro") !! "tier" = Some tier →
      add_user_subscription (tier_ctx "pro") "u7" w0
      = (Ok (Json [("error", JStr "User not found")] 404), w0)
      ∧ (tier ∈ tier_choices → "u7" ≠ "" →
         update_user_subscription (tier_ctx "pro") "u7" w0
         = (Ok (Json [("error", JStr "User not found")] 404), w0)).
Proof. apply (unknown_user_not_found (tier_ctx "pro") "u7" w0); reflexivity. Defined.

(** [update_user_subscription] with one of the three tiers, on a user who
    exists: the user's tier afterwards is that tier, the tier of every other
    user is as before, and the answer names the email and the tier. *)
Theorem update_user_subscription_sets_tier ctx user_id w u tier :
  is_admin_session ctx = true →
  store_error w = None →
  get_json ctx !! "tier" = Some tier →
  tier ∈ tier_choices →
  user_id ≠ "" →
  table_get User.id user_id (users (db w)) = Some u →
  let out := update_user_subscription ctx user_id w in
  out.1 = Ok (Json [("success", JBool true);
                    ("message", JStr ("Updated " +:+ User.email u +:+ " to "
                                      +:+ tier +:+ " tier"))] 200)
  ∧ tier_of user_id (db out.2) = Some tier
  ∧ (∀ k, k ≠ user_id → tier_of k (db out.2) = tier_of k (db w))
  ∧ requests (db out.2) = requests (db w).
Proof.
  intros Hadm Herr Htier Hin Hne Hget out. subst out.
  unfold update_user_subscription. rewrite admin_required_admin by done.
  rewrite (update_user_subscription_body_valid ctx user_id w tier) by done.
  rewrite Hget, Herr. cbn [fst snd db set_db].
  split; [done|]. split; [|split; [|done]].
  - rewrite tier_of_assign_tier, decide_True by done.
    unfold tier_of. by rewrite Hget.
  - intros k Hk. by rewrite tier_of_assign_tier, decide_False.
Qed.

Lemma update_user_subscription_sets_tier_witness :
  let out := update_user_subscription (tier_ctx "pro") "u1" w0 in
  out.1 = Ok (Json [("success", JBool true);
                    ("message", JStr ("Updated " +:+ User.email alice +:+ " to "
                                      +:+ "pro" +:+ " tier"))] 200)
  ∧ tier_of "u1" (db out.2) = Some "pro"
  ∧ (∀ k, k ≠ "u1" → tier_of k (db out.2) = tier_of k (db w0))
  ∧ requests (db out.2) = requests (db w0).
Proof.
  apply (update_user_subscription_sets_tier (tier_ctx "pro") "u1" w0 alice "pro");
    try reflexivity; [|discriminate].
  unfold tier_choices. rewrite !elem_of_cons. auto.
Defined.

(** [update_user_subscription] refuses, before it looks the user up, an
    empty user id, a body without tier and a tier outside the enumeration:
    400 with [Invalid data], the world untouched, whether the user exists or
    not. *)
Theorem update_user_subscription_rejects_invalid ctx user_id w :
  is_admin_session ctx = true →
  match get_json ctx !! "tier" with
  | Some tier => user_id = "" ∨ tier ∉ tier_choices
  | None => True
  end →
  update_user_subscription ctx user_id w
  = (Ok (Json [("error", JStr "Invalid data")] 400), w).
Proof.
  intros Hadm Hbad. unfold update_user_subscription.
  rewrite admin_required_admin by done.
  unfold update_user_subscription_body.
  destruct (get_json ctx !! "tier") as [tier|]; [|done].
  destruct Hbad as [Hid|Hout].
  - by rewrite bool_decide_eq_true_2.
  - rewrite (bool_decide_eq_true_2 (tier ∉ tier_choices)) by done.
    by rewrite orb_true_r.
Qed.

Lemma update_user_subscription_rejects_invalid_witness :
  update_user_subscription admin_ctx "u1" w0
  = (Ok (Json [("error", JStr "Invalid data")] 400), w0).
Proof.
  apply (update_user_subscription_rejects_invalid admin_ctx "u1" w0);
    [reflexivity | exact I].
Defined.

(** [add_user_subscription] assigns the tier of the body, and [medium] when
    the body names none; [remove_user_subscription] assigns [free].  Both
    name the user's email in the answer. *)
Theorem add_and_remove_assign_tier ctx user_id w u :
  is_admin_session ctx = true →
  store_error w = None →
  table_get User.id user_id (users (db w)) = Some u →
  let tier := default "medium" (get_json ctx !! "tier") in
  let added := add_user_subscription ctx user_id w in
  let removed := remove_user_subscription ctx user_id w in
  added.1 = Ok (Json [("success", JBool true);
                      ("message", JStr ("Added " +:+ tier +:+ " subscription to "
                                        +:+ User.email u))] 200)
  ∧ tier_of user_id (db added.2) = Some tier
  ∧ removed.1 = Ok (Json [("success", JBool true);
                          ("message", JStr ("Removed subscription from "
                             +:+ User.email u +:+ " (now free tier)"))] 200)
  ∧ tier_of user_id (db removed.2) = Some "free"
  ∧ ∀ k, k ≠ user_id →
      tier_of k (db added.2) = tier_of k (db w)
      ∧ tier_of k (db removed.2) = tier_of k (db w).
Proof.
  intros Hadm Herr Hget tier added removed. subst added removed.
  unfold add_user_subscription, remove_user_subscription.
  rewrite !admin_required_admin by done.
  rewrite add_user_subscription_body_eq, remove_user_subscription_body_eq.
  cbv zeta. rewrite Hget, Herr. cbn [fst snd db set_db].
  rewrite !tier_of_assign_tier, !decide_True by done.
  unfold tier_of at 1 2. rewrite Hget.
  repeat (split; [done|]).
  intros k Hk. by rewrite !tier_of_assign_tier, !decide_False.
Qed.

Lemma add_and_remove_assign_tier_witness :
  let tier := default "medium" (get_json admin_ctx !! "tier") in
  let added := add_user_subscription admin_ctx "u1" w0 in
  let removed := remove_user_subscription admin_ctx "u1" w0 in
  added.1 = Ok (Json [("success", JBool true);
                      ("message", JStr ("Added " +:+ tier +:+ " subscription to "
                                        +:+ User.email alice))] 200)
  ∧ tier_of "u1" (db added.2) = Some tier
  ∧ removed.1 = Ok (Json [("success", JBool true);
                          ("message", JStr ("Removed subscription from "
                             +:+ User.email alice +:+ " (now free tier)"))] 200)
  ∧ tier_of "u1" (db removed.2) = Some "free"
  ∧ ∀ k, k ≠ "u1" →
      tier_of k (db added.2) = tier_of k (db w0)
      ∧ tier_of k (db removed.2) = tier_of k (db w0).
Proof. apply (add_and_remove_assign_tier admin_ctx "u1" w0 alice); reflexivity. Defined.

(** On a tier of the enumeration the three subscription views are one
    operation on the world: [add_user_subscription] leaves the world
    [update_user_subscription] leaves, and [remove_user_subscription] the one
    an update to [free] leaves.  Only the wording of the answer differs. *)
Theorem subscription_views_agree ctx ctx_free user_id w tier :
  user_id ≠ "" →
  get_json ctx !! "tier" = Some tier →
  tier ∈ tier_choices →
  current_user ctx_free = current_user ctx →
  get_json ctx_free !! "tier" = Some "free" →
  (add_user_subscription ctx user_id w).2 = (update_user_subscription ctx user_id w).2
  ∧ (remove_user_subscription ctx user_id w).2
    = (update_user_subscription ctx_free user_id w).2.
Proof.
  intros Hne Htier Hin Hcu Hfree.
  assert (Hfree_in : "free" ∈ tier_choices) by (unfold tier_choices; left).
  unfold add_user_subscription, remove_user_subscription, update_user_subscription.
  destruct (is_admin_session ctx) eqn:Hadm.
  - assert (Hadm' : is_admin_session ctx_free = true)
      by (unfold is_admin_session in *; by rewrite Hcu).
    rewrite !admin_required_admin by done.
    rewrite add_user_subscription_body_eq, remove_user_subscription_body_eq.
    rewrite (update_user_subscription_body_valid ctx user_id w tier) by done.
    rewrite (update_user_subscription_body_valid ctx_free user_id w "free") by done.
    cbv zeta. rewrite Htier. cbn [default].
    destruct (table_get User.id user_id (users (db w))); [|done].
    by destruct (store_error w).
  - assert (Hadm' : is_admin_session ctx_free = false)
      by (unfold is_admin_session in *; by rewrite Hcu).
    by rewrite !admin_required_redirects.
Qed.

Lemma subscription_views_agree_witness :
  (add_user_subscription (tier_ctx "pro") "u1" w0).2
  = (update_user_subscription (tier_ctx "pro") "u1" w0).2
  ∧ (remove_user_subscription (tier_ctx "pro") "u1" w0).2
    = (update_user_subscription (tier_ctx "free") "u1" w0).2.
Proof.
  apply (subscription_views_agree (tier_ctx "pro") (tier_ctx "free") "u1" w0 "pro");
    try reflexivity; [discriminate|].
  unfold tier_choices. rewrite !elem_of_cons. auto.
Defined.

(** None of the three subscription views handles an exception: when the
    store refuses the commit of [update_subscription], the exception leaves
    the view, and the world is as before. *)
Theorem subscription_views_let_store_failure_out ctx user_id w u msg :
  is_admin_session ctx = true →
  store_error w = Some msg →
  table_get User.id user_id (users (db w)) = Some u →
  add_user_subscription ctx user_id w = (Raise (StoreFailure msg), w)
  ∧ remove_user_subscription ctx user_id w = (Raise (StoreFailure msg), w)
  ∧ ∀ tier, get_json ctx !! "tier" = Some tier → tier ∈ tier_choices →
      user_id ≠ "" →
      update_user_subscription ctx user_id w = (Raise (StoreFailure msg), w).
Proof.
  intros Hadm Herr Hget.
  unfold add_user_subscription, remove_user_subscription, update_user_subscription.
  rewrite !admin_required_admin by done.
  rewrite add_user_subscription_body_eq, remove_user_subscription_body_eq.
  cbv zeta. rewrite Hget, Herr. split; [done|]. split; [done|].
  intros tier Htier Hin Hne.
  rewrite (update_user_subscription_body_valid ctx user_id w tier) by done.
  by rewrite Hget, Herr.
Qed.

Lemma subscription_views_let_store_failure_out_witness :
  add_user_subscription (tier_ctx "pro") "u1" w_down
  = (Raise (StoreFailure "connection lost"), w_down)
  ∧ remove_user_subscription (tier_ctx "pro") "u1" w_down
    = (Raise (StoreFailure "connection lost"), w_down)
  ∧ ∀ tier, get_json (tier_ctx "pro") !! "tier" = Some tier → tier ∈ tier_choices →
      "u1" ≠ "" →
      update_user_subscription (tier_ctx "pro") "u1" w_down
      = (Raise (StoreFailure "connection lost"), w_down).
Proof.
  apply (subscription_views_let_store_failure_out
           (tier_ctx "pro") "u1" w_down alice); reflexivity.
Defined.

(** The dashboard only reads. *)
Lemma dashboard_only_reads ctx w :
  is_admin_session ctx = true →
  ∃ resp, dashboard ctx () w = (resp, w).
Proof.
  intros Hadm. unfold dashboard. rewrite admin_required_admin by done.
  unfold dashboard_body, mbind, M_bind, User_get_all_users,
    StockScreening_get_all, SubscriptionRequest_get_pending.
  rewrite for_append_request_rows. by eexists.
Qed.

(** ** What a sequence of admin operations can do to the store *)

(** Every operation leaves the database alone, assigns a tier, deletes a
    user who is not an admin, deletes a screening, or resolves a request of
    the table. *)
Lemma run_op_db o w :
  db (run_op o w).2 = db w
  ∨ (∃ user_id tier, (op_tier_checked o → tier ∈ tier_choices)
       ∧ db (run_op o w).2 = assign_tier user_id tier (db w))
  ∨ (∃ user_id u, table_get User.id user_id (users (db w)) = Some u
       ∧ User.is_admin u = false
       ∧ db (run_op o w).2 = set_users (table_delete User.id user_id) (db w))
  ∨ (∃ screening_id,
       db (run_op o w).2
       = set_screenings (table_delete StockScreening.id screening_id) (db w))
  ∨ (∃ v request_id r,
       table_get SubscriptionRequest.id request_id (requests (db w)) = Some r
       ∧ SubscriptionRequest.status r = "pending"
       ∧ db (run_op o w).2 = resolution_changes v r (clock w) (db w)).
Proof.
  assert (Hview : ∀ v ctx request_id,
    db (view v ctx request_id w).2 = db w
    ∨ ∃ r, table_get SubscriptionRequest.id request_id (requests (db w)) = Some r
           ∧ SubscriptionRequest.status r = "pending"
           ∧ db (view v ctx request_id w).2 = resolution_changes v r (clock w) (db w)).
  { intros v ctx request_id. unfold view.
    destruct (is_admin_session ctx) eqn:Hadm;
      [|left; by apply admin_required_other].
    rewrite admin_required_admin by done.
    destruct (table_get SubscriptionRequest.id request_id (requests (db w)))
      as [r|] eqn:Hget; [|left; by rewrite view_body_not_found].
    destruct (decide (SubscriptionRequest.status r = "pending")) as [Hpend|Hproc];
      [|left; by rewrite (view_body_processed v ctx request_id w r)].
    destruct (store_error w) as [msg|] eqn:Herr;
      [left; by rewrite (view_body_store_failure v ctx request_id w r msg)|].
    right. exists r. by rewrite (view_body_pending v ctx request_id w r). }
  destruct o as [ctx|ctx user_id|ctx user_id|ctx user_id|ctx user_id
                 |ctx screening_id|ctx request_id|ctx request_id]; cbn [run_op].
  - left.
    destruct (is_admin_session ctx) eqn:Hadm;
      [|by apply (admin_required_other dashboard_body)].
    destruct (dashboard_only_reads ctx w Hadm) as [resp ->]. done.
  - destruct (update_user_subscription_tier ctx user_id w) as [->|[->|[t [Ht ->]]]];
      [by left..|].
    right; left. by exists user_id, t.
  - unfold add_user_subscription.
    destruct (is_admin_session ctx) eqn:Hadm;
      [|left; by apply admin_required_other].
    rewrite admin_required_admin, add_user_subscription_body_eq by done. cbv zeta.
    destruct (table_get User.id user_id (users (db w))); [|by left].
    destruct (store_error w); [by left|].
    right; left. by eexists user_id, _.
  - destruct (remove_user_subscription_tier ctx user_id w) as [->|[->| ->]];
      [by left..|].
    right; left. exists user_id, "free". split; [|done].
    intros _. unfold tier_choices. left.
  - unfold delete_user.
    destruct (is_admin_session ctx) eqn:Hadm;
      [|left; by apply admin_required_other].
    rewrite admin_required_admin by done.
    unfold delete_user_body, mbind, M_bind, User_get.
    destruct (table_get User.id user_id (users (db w))) as [u|] eqn:Hu; [|by left].
    destruct (User.is_admin u) eqn:Hadmin; [by left|].
    unfold try_except, session_delete_commit, commit.
    destruct (store_error w); [by left|].
    destruct (table_get_Some _ _ _ _ Hu) as [Hkey _].
    right; right; left. exists user_id, u. by rewrite Hkey.
  - unfold delete_screening.
    destruct (is_admin_session ctx) eqn:Hadm;
      [|left; by apply admin_required_other].
    rewrite admin_required_admin by done.
    unfold delete_screening_body, mbind, M_bind, StockScreening_get.
    destruct (table_get StockScreening.id screening_id (screenings (db w)));
      [|by left].
    unfold try_except, StockScreening_delete, commit.
    destruct (store_error w); [by left|].
    right; right; right; left. by eexists.
  - destruct (Hview Approve ctx request_id) as [Hsame|(r & Hr & Hp & Hdb)];
      [by left|].
    right; right; right; right. by exists Approve, request_id, r.
  - destruct (Hview Reject ctx request_id) as [Hsame|(r & Hr & Hp & Hdb)];
      [by left|].
    right; right; right; right. by exists Reject, request_id, r.
Qed.

Lemma Forall_table_update {A} (key : A → string) k f (P : A → Prop) (t : list A) :
  Forall P t → (∀ r, r ∈ t → P r → P (f r)) → Forall P (table_update key k f t).
Proof.
  intros Ht Hf. unfold table_update. rewrite Forall_fmap.
  rewrite Forall_forall in Ht. apply Forall_forall. intros r Hr. simpl.
  case_decide; auto.
Qed.

Lemma tiers_valid_assign_tier user_id tier d :
  tier ∈ tier_choices → tiers_valid d → tiers_valid (assign_tier user_id tier d).
Proof.
  intros Hin [Hu Hr]. split; [|done]. cbn [assign_tier users set_users].
  apply Forall_table_update; [done|]. by intros r _ _.
Qed.

Lemma tiers_valid_resolution v r now d :
  r ∈ requests d → tiers_valid d → tiers_valid (resolution_changes v r now d).
Proof.
  intros Hr Hvalid.
  assert (Hres : ∀ st, tiers_valid (resolve_request r st now d)).
  { intros st. destruct Hvalid as [Hu Hreq]. split; [done|].
    cbn [resolve_request requests set_requests].
    apply Forall_table_update; [done|]. by intros r' _ Hr'. }
  destruct v; cbn [resolution_changes]; [|done].
  apply tiers_valid_assign_tier; [|done].
  destruct Hvalid as [_ Hreq]. rewrite Forall_forall in Hreq. by apply Hreq.
Qed.

(** Run in any order and by any caller, the dashboard, the update and
    removal of a subscription, the deletion of a user or of a screening,
    approvals and rejections keep every stored tier within free, medium and
    pro; so does [add_user_subscription] as long as the tier it is sent lies
    there. *)
Theorem tiers_stay_valid ops w :
  Forall op_tier_checked ops →
  tiers_valid (db w) →
  tiers_valid (db (run_ops ops w)).
Proof.
  unfold run_ops. intros Hops. revert w.
  induction Hops as [|o ops Ho _ IH]; intros w Hvalid; [done|].
  cbn [foldl]. apply IH.
  destruct (run_op_db o w)
    as [->|[(uid & tier & Htier & ->)|[(uid & u & Hu & _ & ->)
        |[[sid ->]|(v & rid & r & Hr & Hpend & ->)]]]].
  - done.
  - by apply tiers_valid_assign_tier; [apply Htier|].
  - destruct Hvalid as [Hus Hreq]. split; [|done].
    cbn [users set_users]. unfold table_delete.
    rewrite Forall_forall in Hus. apply Forall_forall.
    intros r Hr. apply Hus. by apply list_elem_of_filter in Hr as [_ Hr].
  - done.
  - apply tiers_valid_resolution; [|done].
    by destruct (table_get_Some _ _ _ _ Hr).
Qed.

Lemma tiers_stay_valid_witness : tiers_valid (db (run_ops sample_ops w0)).
Proof. apply (tiers_stay_valid sample_ops w0); compute_done. Defined.

(** Whatever operations run, in any order and by any caller, a user who is
    an admin stays in the store under the same id, still an admin, with the
    same email and name. *)
Theorem admins_survive ops w user_id u :
  table_get User.id user_id (users (db w)) = Some u →
  User.is_admin u = true →
  ∃ u', table_get User.id user_id (users (db (run_ops ops w))) = Some u'
        ∧ User.is_admin u' = true
        ∧ User.email u' = User.email u
        ∧ User.full_name u' = User.full_name u.
Proof.
  unfold run_ops. revert w u.
  induction ops as [|o ops IH]; intros w u Hget Hadmin; [by exists u|].
  cbn [foldl].
  assert (Hstep : ∃ u1, table_get User.id user_id (users (db (run_op o w).2)) = Some u1
                        ∧ User.is_admin u1 = true
                        ∧ User.email u1 = User.email u
                        ∧ User.full_name u1 = User.full_name u).
  { assert (Hassign : ∀ uid tier,
      ∃ u1, table_get User.id user_id (users (assign_tier uid tier (db w))) = Some u1
            ∧ User.is_admin u1 = true ∧ User.email u1 = User.email u
            ∧ User.full_name u1 = User.full_name u).
    { intros uid tier. cbn [assign_tier users set_users].
      rewrite table_get_update by apply set_subscription_tier_id.
      rewrite Hget. case_decide; eexists; by split. }
    destruct (run_op_db o w)
      as [->|[(uid & tier & _ & ->)|[(uid & u0 & Hu0 & Hna & ->)
          |[[sid ->]|(v & rid & r & Hr & Hpend & ->)]]]].
    - by exists u.
    - apply Hassign.
    - exists u. cbn [users set_users]. rewrite table_get_delete.
      rewrite decide_False; [done|]. intros ->. congruence.
    - by exists u.
    - destruct v; cbn [resolution_changes].
      + apply Hassign.
      + by exists u. }
  destruct Hstep as (u1 & Hget1 & Hadmin1 & Hemail1 & Hname1).
  destruct (IH _ u1 Hget1 Hadmin1) as (u' & Hget' & Hadmin' & Hemail' & Hname').
  exists u'. split; [done|]. split; [done|]. split; congruence.
Qed.

Lemma admins_survive_witness :
  ∃ u', table_get User.id "u0" (users (db (run_ops sample_ops w0))) = Some u'
        ∧ User.is_admin u' = true
        ∧ User.email u' = User.email root
        ∧ User.full_name u' = User.full_name root.
Proof. apply (admins_survive sample_ops w0 "u0" root); reflexivity. Defined.

Lemma request_identity_update k st now (t : list SubscriptionRequest.t) :
  request_identity
    <$> table_update SubscriptionRequest.id k (SubscriptionRequest.resolve st now) t
  = request_identity <$> t.
Proof.
  unfold table_update. rewrite <- list_fmap_compose.
  apply list_fmap_ext. intros i r _. simpl. by case_decide.
Qed.

(** No operation adds, deletes or reorders a subscription request, and none
    changes the id, the user, the two tiers or the creation time of one: a
    request only ever changes its status and its update time.  In particular
    deleting a user leaves the user's requests in place. *)
Theorem requests_keep_identity ops w :
  request_identity <$> requests (db (run_ops ops w))
  = request_identity <$> requests (db w).
Proof.
  unfold run_ops. revert w. induction ops as [|o ops IH]; intros w; [done|].
  cbn [foldl]. rewrite IH.
  destruct (run_op_db o w)
    as [->|[(uid & tier & _ & ->)|[(uid & u0 & _ & _ & ->)
        |[[sid ->]|(v & rid & r & Hr & Hpend & ->)]]]];
    [done..|].
  destruct v; cbn [resolution_changes assign_tier resolve_request requests
                   set_requests set_users];
    apply request_identity_update.
Qed.

(** ** The figures of the dashboard *)





(** The dashboard counts what it lists: [pending_requests] is the number of
    rows under [subscription_requests], one per pending request of the table;
    of the screenings it lists the first five in the order of the store while
    [total_screenings] counts them all; and it changes nothing. *)
Theorem dashboard_counts_what_it_lists ctx w :
  is_admin_session ctx = true →
  let resp := (dashboard ctx () w).1 in
  ∃ rows,
    admin_data_field "subscription_requests" resp = Some (JList rows)
    ∧ stats_field "pending_requests" resp = Some (JNum (Z.of_nat (length rows)))
    ∧ length rows = length (filter is_pending (requests (db w)))
    ∧ admin_data_field "screenings" resp
      = Some (JList (screening_row <$> take 5 (screenings (db w))))
    ∧ stats_field "total_screenings" resp
      = Some (JNum (Z.of_nat (length (screenings (db w)))))
    ∧ (dashboard ctx () w).2 = w.
Proof.
  intros Hadm resp. subst resp. unfold dashboard.
  rewrite admin_required_admin by done.
  unfold dashboard_body, mbind, M_bind, User_get_all_users,
    StockScreening_get_all, SubscriptionRequest_get_pending.
  rewrite for_append_request_rows. cbn [fst snd].
  eexists. split; [reflexivity|].
  split; [cbn; by rewrite length_fmap|].
  split; [|done].
  rewrite length_fmap. apply Permutation_length, merge_sort_Permutation.
Qed.

Lemma dashboard_counts_what_it_lists_witness :
  let resp := (dashboard admin_ctx () w0).1 in
  ∃ rows,
    admin_data_field "subscription_requests" resp = Some (JList rows)
    ∧ stats_field "pending_requests" resp = Some (JNum (Z.of_nat (length rows)))
    ∧ length rows = length (filter is_pending (requests (db w0)))
    ∧ admin_data_field "screenings" resp
      = Some (JList (screening_row <$> take 5 (screenings (db w0))))
    ∧ stats_field "total_screenings" resp
      = Some (JNum (Z.of_nat (length (screenings (db w0)))))
    ∧ (dashboard admin_ctx () w0).2 = w0.
Proof. apply (dashboard_counts_what_it_lists admin_ctx w0). reflexivity. Defined.

(** ** Mock screening results *)

Lemma randint_range a b t :
  a ≤ b → a ≤ (Random.randint a b t).1 ≤ b.
Proof.
  intros Hab. unfold Random.randint. destruct (Random.draw t) as [d t'].
  cbn [fst]. pose proof (Z.mod_pos_bound (Z.of_N d) (b - a + 1)). lia.
Qed.

(** On a sequence that is not empty [choice] returns one of its elements. *)
Lemma choice_elem_of {A} (seq : list A) t :
  seq ≠ [] → ∃ x, (Random.choice seq t).1 = Some x ∧ x ∈ seq.
Proof.
  intros Hne. unfold Random.choice. destruct (Random.draw t) as [d t'].
  cbn [fst].
  assert (Hlt : (N.to_nat d `mod` length seq < length seq)%nat).
  { apply Nat.mod_upper_bound. by destruct seq. }
  destruct (lookup_lt_is_Some_2 _ _ Hlt) as [x Hx].
  exists x. split; [done|]. by eapply list_elem_of_lookup_2.
Qed.

Lemma length_chars s : length (chars s) = String.length s.
Proof.
  unfold chars. rewrite length_fmap.
  induction s as [|c s IH]; [done|]. simpl. by rewrite IH.
Qed.

Lemma mock_stock_in_range symbol t :
  mock_get "symbol" (mock_stock symbol t).1 = Some (MStr symbol)
  ∧ stock_in_range (mock_stock symbol t).1.
Proof.
  unfold mock_stock, Random.round_uniform.
  destruct (Random.draw t) as [d1 t1].
  destruct (Random.draw t1) as [d2 t2].
  pose proof (randint_range 1000000 50000000 t2) as Hvol.
  destruct (Random.randint 1000000 50000000 t2) as [volume t3].
  pose proof (randint_range 100 2000 t3) as Hcap.
  destruct (Random.randint 100 2000 t3) as [market_cap t4].
  destruct (Random.draw t4) as [d5 t5].
  pose proof (randint_range 60 95 t5) as Hscore.
  destruct (Random.randint 60 95 t5) as [score t6].
  cbn [fst] in *. split; [done|].
  exists volume, market_cap, score.
  split; [done|]. split; [done|]. split; [done|]. lia.
Qed.

(** The loop appends one stock per element, in order. *)
Lemma mock_stocks_symbols (l : list string) t :
  (λ stock, mock_get "symbol" stock) <$> (mock_stocks l t).1
  = (λ c, Some (MStr c)) <$> l
  ∧ Forall stock_in_range (mock_stocks l t).1.
Proof.
  revert t. induction l as [|c l IH]; intros t; [by split|].
  cbn [mock_stocks].
  destruct (mock_stock_in_range c t) as [Hsym Hrange].
  destruct (mock_stock c t) as [stock t1].
  destruct (IH t1) as [Hsyms Hranges].
  destruct (mock_stocks l t1) as [results t2].
  cbn [fst] in *. split.
  - rewrite !fmap_cons. by rewrite Hsym, Hsyms.
  - by constructor.
Qed.

(** The generator never meets the [IndexError] of [choice]: it always comes
    to the loop, over the characters of one symbol. *)
Lemma mock_results_shape criteria now t :
  ∃ symbol t2,
    generate_mock_screening_results criteria now t
    = let '(results, t3) := mock_stocks (chars symbol) t2 in
      (Some [("stocks", MList (MDict <$> results));
             ("total_found", MInt (Z.of_nat (length results)));
             ("criteria_matched", MInt (Z.of_nat (size criteria)));
             ("generated_at", MStr (isoformat now))], t3).
Proof.
  unfold generate_mock_screening_results.
  pose proof (randint_range 5 (Z.min (Z.of_nat (length symbols)) 12) t) as Hnum.
  destruct (Random.randint 5 (Z.min (Z.of_nat (length symbols)) 12) t)
    as [num t1].
  cbn [fst] in Hnum. specialize (Hnum ltac:(by vm_compute)).
  destruct (choice_elem_of (take (Z.to_nat num) symbols) t1)
    as (symbol & Hchoice & _).
  { intros Hnil. apply (f_equal length) in Hnil.
    rewrite length_take in Hnil. simpl in Hnil. lia. }
  destruct (Random.choice (take (Z.to_nat num) symbols) t1) as [picked t2].
  cbn [fst] in Hchoice. subst picked. by exists symbol, t2.
Qed.

(** Whatever the draws and the criteria, [generate_mock_screening_results]
    returns, and its stocks spell one symbol out: [choice] picks a single
    symbol among the first twelve and the loop runs over its characters, so
    there is one stock per character, each with a one-character [symbol];
    [total_found] is the length of that symbol, between 3 and 5, and
    [criteria_matched] is the number of criteria. *)
Theorem mock_results_spell_one_symbol criteria now t :
  ∃ symbol stocks out t',
    generate_mock_screening_results criteria now t = (Some out, t')
    ∧ symbol ∈ take 12 symbols
    ∧ mock_get "stocks" out = Some (MList (MDict <$> stocks))
    ∧ (λ stock, mock_get "symbol" stock) <$> stocks
      = (λ c, Some (MStr c)) <$> chars symbol
    ∧ mock_get "total_found" out = Some (MInt (Z.of_nat (String.length symbol)))
    ∧ (3 ≤ String.length symbol ≤ 5)%nat
    ∧ mock_get "criteria_matched" out = Some (MInt (Z.of_nat (size criteria))).
Proof.
  unfold generate_mock_screening_results.
  pose proof (randint_range 5 (Z.min (Z.of_nat (length symbols)) 12) t) as Hnum.
  destruct (Random.randint 5 (Z.min (Z.of_nat (length symbols)) 12) t)
    as [num t1].
  cbn [fst] in Hnum. specialize (Hnum ltac:(by vm_compute)).
  assert (Hnum' : 5 ≤ num ≤ 12) by (revert Hnum; vm_compute (Z.min _ _); lia).
  clear Hnum.
  destruct (choice_elem_of (take (Z.to_nat num) symbols) t1)
    as (symbol & Hchoice & Hin).
  { intros Hnil. apply (f_equal length) in Hnil.
    rewrite length_take in Hnil. simpl in Hnil. lia. }
  destruct (Random.choice (take (Z.to_nat num) symbols) t1) as [picked t2].
  cbn [fst] in Hchoice. subst picked.
  assert (Hin12 : symbol ∈ take 12 symbols).
  { apply elem_of_take in Hin as (i & Hi & Hlt).
    apply elem_of_take. exists i. split; [done | lia]. }
  destruct (mock_stocks_symbols (chars symbol) t2) as [Hsyms _].
  destruct (mock_stocks (chars symbol) t2) as [results t3] eqn:Hres.
  cbn [fst] in Hsyms.
  eexists symbol, results, _, t3. split; [reflexivity|].
  split; [done|]. split; [done|]. split; [done|].
  assert (Hlen : length results = String.length symbol).
  { apply (f_equal length) in Hsyms. rewrite !length_fmap in Hsyms.
    by rewrite Hsyms, length_chars. }
  split; [cbn; by rewrite Hlen|]. split; [|done].
  assert (Hall : Forall (λ s, (3 ≤ String.length s ≤ 5)%nat) (take 12 symbols))
    by (vm_compute; repeat constructor).
  rewrite Forall_forall in Hall. by apply Hall.
Qed.

(** In every stock of the mock results the volume lies between 1,000,000 and
    50,000,000, the score between 60 and 95, and [market_cap] reads [$nB]
    for an integer n between 100 and 2000. *)
Theorem mock_results_in_range criteria now t :
  ∃ stocks out t',
    generate_mock_screening_results criteria now t = (Some out, t')
    ∧ mock_get "stocks" out = Some (MList (MDict <$> stocks))
    ∧ Forall stock_in_range stocks.
Proof.
  destruct (mock_results_shape criteria now t) as (symbol & t2 & Heq).
  destruct (mock_stocks_symbols (chars symbol) t2) as [_ Hranges].
  rewrite Heq. destruct (mock_stocks (chars symbol) t2) as [results t3].
  eexists results, _, t3. split; [reflexivity|]. by split.
Qed.

(** ** The admin login *)

Lemma truthy_Some (s : option string) :
  truthy s = true → ∃ x, s = Some x ∧ x ≠ "".
Proof.
  destruct s as [x|]; [|done]. simpl. intros Hx. exists x. split; [done|].
  intros ->. by rewrite bool_decide_eq_true_2 in Hx.
Qed.

(** [admin_login] never touches the database, and it puts a user into the
    session only on a POST that carries a non-empty email and password, when
    the user found under that email is an admin and passes the password
    check; in every other case the session keeps the user it had. *)
Theorem admin_login_admits_only_admins check_password req s :
  let out := admin_login check_password req s in
  let data := if is_json req then json_body req else form req in
  db (session_world out.2) = db (session_world s)
  ∧ (session_user_id out.2 = session_user_id s
     ∨ ∃ u email password,
         method req = POST
         ∧ data !! "email" = Some email ∧ email ≠ ""
         ∧ data !! "password" = Some password ∧ password ≠ ""
         ∧ User_get_by_email email (db (session_world s)) = Some u
         ∧ User.email u = email
         ∧ User.is_admin u = true
         ∧ check_password u password = true
         ∧ out.2 = login_user u s).
Proof.
  cbv zeta. unfold admin_login.
  destruct (method req) eqn:Hmethod; [by split; [|left]|].
  set (data := if is_json req then json_body req else form req).
  destruct (truthy (data !! "email")) eqn:Hemail;
    [|cbn [andb]; destruct (is_json req); by split; [|left]].
  destruct (truthy (data !! "password")) eqn:Hpassword;
    [|cbn [andb]; destruct (is_json req); by split; [|left]].
  cbn [andb].
  destruct (truthy_Some _ Hemail) as (email & Hdata_email & Hemail_ne).
  destruct (truthy_Some _ Hpassword) as (password & Hdata_pw & Hpw_ne).
  rewrite Hdata_email, Hdata_pw.
  change (default "" (Some email)) with email.
  change (default "" (Some password)) with password.
  destruct (User_get_by_email email (db (session_world s))) as [u|] eqn:Hu;
    [|destruct (is_json req); by split; [|left]].
  destruct (User.is_admin u) eqn:Hadmin;
    [|cbn [andb]; destruct (is_json req); by split; [|left]].
  destruct (check_password u password) eqn:Hcheck;
    [|cbn [andb]; destruct (is_json req); by split; [|left]].
  cbn [andb].
  assert (Hfound : User.email u = email)
    by (unfold User_get_by_email in Hu; by destruct (table_get_Some _ _ _ _ Hu)).
  destruct (is_json req); (split; [done|]); right;
    exists u, email, password; by repeat split.
Qed.

(** A POST with email and password that does not get in is refused in one
    and the same way, whether no user has that email, the user is not an
    admin, or the password is wrong: JSON callers get 401 with
    [Invalid admin credentials.], form callers the login page again with
    that message flashed; the session is not logged in. *)
Theorem admin_login_refuses_uniformly check_password req s email password :
  let data := if is_json req then json_body req else form req in
  method req = POST →
  data !! "email" = Some email → email ≠ "" →
  data !! "password" = Some password → password ≠ "" →
  (∀ u, User_get_by_email email (db (session_world s)) = Some u →
        User.is_admin u && check_password u password = false) →
  admin_login check_password req s
  = if is_json req
    then (Json [("success", JBool false);
                ("error", JStr "Invalid admin credentials.")] 401, s)
    else (RenderTemplate "spa.html" None,
          flash_in_session "Invalid admin credentials." "error" s).
Proof.
  cbv zeta. intros Hmethod Hemail Hemail_ne Hpw Hpw_ne Hrefused.
  unfold admin_login. rewrite Hmethod, Hemail, Hpw. cbn [truthy].
  change (default "" (Some email)) with email.
  change (default "" (Some password)) with password.
  rewrite !bool_decide_eq_false_2 by done. cbn [negb andb].
  destruct (User_get_by_email email (db (session_world s))) as [u|]; [|done].
  by rewrite (Hrefused u eq_refl).
Qed.

Lemma admin_login_refuses_uniformly_witness :
  admin_login sample_check_password
    (login_post "alice@example.com" "s3cret") (MkSession w0 None)
  = if is_json (login_post "alice@example.com" "s3cret")
    then (Json [("success", JBool false);
                ("error", JStr "Invalid admin credentials.")] 401,
          MkSession w0 None)
    else (RenderTemplate "spa.html" None,
          flash_in_session "Invalid admin credentials." "error"
            (MkSession w0 None)).
Proof.
  apply (admin_login_refuses_uniformly sample_check_password
           (login_post "alice@example.com" "s3cret") (MkSession w0 None)
           "alice@example.com" "s3cret");
    try reflexivity; try discriminate.
  intros u [= <-]. reflexivity.
Defined.

Example admin_login_root :
  admin_login sample_check_password
    (login_post "root@example.com" "s3cret") (MkSession w0 None)
  = (Json [("success", JBool true);
           ("message", JStr "Admin login successful");
           ("redirect", JStr "/admin/dashboard")] 200,
     MkSession w0 (Some "u0")).
Proof. reflexivity. Qed.

(** ** [delete_screening] *)

(** A screening that exists is deleted: the answer names it, its id no
    longer resolves, the other screenings stay in their order, and users and
    requests are not touched. *)
Theorem delete_screening_removes_screening ctx screening_id w screening :
  is_admin_session ctx = true →
  store_error w = None →
  table_get StockScreening.id screening_id (screenings (db w)) = Some screening →
  let out := delete_screening ctx screening_id w in
  out.1 = Ok (Json [("success", JBool true);
                    ("message", JStr ("Deleted screening "
                                      +:+ StockScreening.name screening))] 200)
  ∧ screenings (db out.2)
    = filter (λ s, StockScreening.id s ≠ screening_id) (screenings (db w))
  ∧ table_get StockScreening.id screening_id (screenings (db out.2)) = None
  ∧ users (db out.2) = users (db w)
  ∧ requests (db out.2) = requests (db w).
Proof.
  intros Hadm Herr Hget out. subst out. unfold delete_screening.
  rewrite admin_required_admin by done.
  destruct (table_get_Some _ _ _ _ Hget) as [Hid _].
  unfold delete_screening_body, mbind, M_bind, StockScreening_get.
  rewrite Hget. unfold try_except, StockScreening_delete, commit.
  rewrite Herr, Hid.
  cbn [fst snd db set_db set_screenings screenings users requests mret M_ret].
  split; [done|]. split; [done|]. split; [|done].
  rewrite table_get_delete. by rewrite decide_True.
Qed.

Lemma delete_screening_removes_screening_witness :
  let out := delete_screening admin_ctx "s1" w_screenings in
  out.1 = Ok (Json [("success", JBool true);
                    ("message", JStr ("Deleted screening "
                                      +:+ StockScreening.name growth))] 200)
  ∧ screenings (db out.2)
    = filter (λ s, StockScreening.id s ≠ "s1") (screenings (db w_screenings))
  ∧ table_get StockScreening.id "s1" (screenings (db out.2)) = None
  ∧ users (db out.2) = users (db w_screenings)
  ∧ requests (db out.2) = requests (db w_screenings).
Proof.
  apply (delete_screening_removes_screening admin_ctx "s1" w_screenings growth);
    reflexivity.
Defined.

(** The failures of [delete_screening]: an id that names no screening gets
    404 with [Screening not found]; when the store refuses the commit the
    exception is caught and answered as 500 with its message.  Either way the
    world is as before. *)
Theorem delete_screening_failures ctx screening_id w :
  is_admin_session ctx = true →
  (table_get StockScreening.id screening_id (screenings (db w)) = None →
   delete_screening ctx screening_id w
   = (Ok (Json [("error", JStr "Screening not found")] 404), w))
  ∧ (∀ screening msg,
       table_get StockScreening.id screening_id (screenings (db w)) = Some screening →
       store_error w = Some msg →
       delete_screening ctx screening_id w
       = (Ok (Json [("error", JStr msg)] 500), w)).
Proof.
  intros Hadm. unfold delete_screening. rewrite admin_required_admin by done.
  unfold delete_screening_body, mbind, M_bind, StockScreening_get.
  split.
  - by intros ->.
  - intros screening msg -> Herr.
    unfold try_except, StockScreening_delete, commit. by rewrite Herr.
Qed.

Lemma delete_screening_failures_witness :
  (table_get StockScreening.id "s1" (screenings (db w_screenings_down)) = None →
   delete_screening admin_ctx "s1" w_screenings_down
   = (Ok (Json [("error", JStr "Screening not found")] 404), w_screenings_down))
  ∧ (∀ screening msg,
       table_get StockScreening.id "s1" (screenings (db w_screenings_down))
         = Some screening →
       store_error w_screenings_down = Some msg →
       delete_screening admin_ctx "s1" w_screenings_down
       = (Ok (Json [("error", JStr msg)] 500), w_screenings_down)).
Proof.
  apply (delete_screening_failures admin_ctx "s1" w_screenings_down).
  reflexivity.
Defined.

Example delete_screening_down :
  delete_screening admin_ctx "s1" w_screenings_down
  = (Ok (Json [("error", JStr "connection lost")] 500), w_screenings_down).
Proof. reflexivity. Qed.

(** ** A request is resolved at most once *)

Lemma view_success_inv v ctx request_id w body :
  (view v ctx request_id w).1 = Ok (Json body 200) →
  is_admin_session ctx = true
  ∧ store_error w = None
  ∧ status_of request_id (db w) = Some "pending"
  ∧ status_of request_id (db (view v ctx request_id w).2)
    = Some (match v with Approve => "approved" | Reject => "rejected" end).
Proof.
  unfold view. intros Hok.
  destruct (is_admin_session ctx) eqn:Hadm;
    [|by rewrite admin_required_redirects in Hok].
  rewrite admin_required_admin in Hok |- * by done.
  destruct (table_get SubscriptionRequest.id request_id (requests (db w)))
    as [r|] eqn:Hget; [|by rewrite view_body_not_found in Hok].
  destruct (decide (SubscriptionRequest.status r = "pending")) as [Hpend|Hproc];
    [|by rewrite (view_body_processed v ctx request_id w r) in Hok].
  destruct (store_error w) as [msg|] eqn:Herr;
    [by rewrite (view_body_store_failure v ctx request_id w r msg) in Hok|].
  rewrite (view_body_pending v ctx request_id w r) by done.
  cbn [snd db set_db]. split; [done|]. split; [done|]. split.
  - unfold status_of. by rewrite Hget, <- Hpend.
  - by apply status_of_resolution.
Qed.

(** Approve and reject answer with success only to an admin, on a request
    that was pending, with the store taking the commit; the request is then
    approved, respectively rejected, hence no longer pending. *)
Theorem resolution_success_means_transition v ctx request_id w body :
  (view v ctx request_id w).1 = Ok (Json body 200) →
  is_admin_session ctx = true
  ∧ store_error w = None
  ∧ status_of request_id (db w) = Some "pending"
  ∧ status_of request_id (db (view v ctx request_id w).2)
    = Some (match v with Approve => "approved" | Reject => "rejected" end).
Proof.
  unfold view. intros Hok.
  destruct (is_admin_session ctx) eqn:Hadm;
    [|by rewrite admin_required_redirects in Hok].
  rewrite admin_required_admin in Hok |- * by done.
  destruct (table_get SubscriptionRequest.id request_id (requests (db w)))
    as [r|] eqn:Hget; [|by rewrite view_body_not_found in Hok].
  destruct (decide (SubscriptionRequest.status r = "pending")) as [Hpend|Hproc];
    [|by rewrite (view_body_processed v ctx request_id w r) in Hok].
  destruct (store_error w) as [msg|] eqn:Herr;
    [by rewrite (view_body_store_failure v ctx request_id w r msg) in Hok|].
  rewrite (view_body_pending v ctx request_id w r) by done.
  cbn [snd db set_db]. split; [done|]. split; [done|]. split.
  - unfold status_of. by rewrite Hget, <- Hpend.
  - by apply status_of_resolution.
Qed.

Lemma resolution_success_means_transition_witness :
  is_admin_session admin_ctx = true
  ∧ store_error w0 = None
  ∧ status_of "r1" (db w0) = Some "pending"
  ∧ status_of "r1" (db (view Approve admin_ctx "r1" w0).2) = Some "approved".
Proof.
  apply (resolution_success_means_transition Approve admin_ctx "r1" w0
           [("success", JBool true);
            ("message", JStr "Approved alice@example.com's upgrade to pro")]).
  reflexivity.
Defined.

(** No operation moves a request out of a terminal state. *)
Lemma run_op_keeps_terminal o request_id w st :
  status_of request_id (db w) = Some st →
  st ≠ "pending" →
  status_of request_id (db (run_op o w).2) = Some st.
Proof.
  intros Hst Hterm.
  destruct (run_op_db o w)
    as [->|[(uid & tier & _ & ->)|[(uid & u0 & _ & _ & ->)
        |[[sid ->]|(v & rid & r & Hr & Hpend & ->)]]]]; [done..|].
  rewrite status_of_resolution_other; [done|].
  destruct (table_get_Some _ _ _ _ Hr) as [-> _].
  intros ->. unfold status_of in Hst. rewrite Hr in Hst. simpl in Hst. congruence.
Qed.

Lemma resolves_view request_id o :
  resolves request_id o = true →
  ∃ v ctx, run_op o = view v ctx request_id.
Proof.
  destruct o; simpl; try done; intros Heq%bool_decide_eq_true; subst.
  - by exists Approve, ctx.
  - by exists Reject, ctx.
Qed.

Lemma is_success_Json answer :
  is_success answer = true → ∃ body, answer = Ok (Json body 200).
Proof.
  destruct answer as [[body code| |]|]; try done. simpl.
  destruct code as [|p|p]; try done.
  intros Hp. exists body.
  assert (p = 200%positive) as ->; [|done].
  revert Hp. clear.
  do 8 (destruct p as [p|p|]; try done).
Qed.

Lemma resolutions_of_terminal request_id ops w st :
  status_of request_id (db w) = Some st →
  st ≠ "pending" →
  resolutions_of request_id ops w = 0%nat.
Proof.
  revert w. induction ops as [|o ops IH]; intros w Hst Hterm; [done|].
  cbn [resolutions_of].
  rewrite (IH _ (run_op_keeps_terminal o request_id w st Hst Hterm) Hterm).
  destruct (resolves request_id o) eqn:Hres; [|done].
  destruct (is_success (run_op o w).1) eqn:Hok; [|done].
  destruct (resolves_view _ _ Hres) as (v & ctx & Hview).
  destruct (is_success_Json _ Hok) as [body Hbody]. rewrite Hview in Hbody.
  destruct (view_success_inv _ _ _ _ _ Hbody)
    as (_ & _ & Hpend & _).
  congruence.
Qed.

(** In any sequence of admin operations, by whatever callers, at most one
    approval or rejection of a given request answers with success: once a
    call has gone through, every later one on that request is refused. *)
Theorem request_resolved_at_most_once request_id ops w :
  (resolutions_of request_id ops w ≤ 1)%nat.
Proof.
  revert w. induction ops as [|o ops IH]; intros w; [cbn; lia|].
  cbn [resolutions_of].
  destruct (resolves request_id o) eqn:Hres; [|apply IH].
  destruct (is_success (run_op o w).1) eqn:Hok; [|apply IH].
  destruct (resolves_view _ _ Hres) as (v & ctx & Hview).
  destruct (is_success_Json _ Hok) as [body Hbody]. rewrite Hview in Hbody.
  destruct (view_success_inv _ _ _ _ _ Hbody)
    as (_ & _ & _ & Hafter).
  rewrite <- Hview in Hafter.
  rewrite (resolutions_of_terminal request_id ops _ _ Hafter); [cbn; lia|].
  by destruct v.
Qed.

Example resolutions_of_r1 :
  resolutions_of "r1"
    [OpReject (MkContext (Some alice) ∅) "r1"; OpApprove admin_ctx "r1";
     OpReject admin_ctx "r1"; OpApprove admin_ctx "r1"] w0 = 1%nat.
Proof. reflexivity. Qed.

(** ** Resolutions that end in an exception *)



(** For every pending request, when the store refuses the commit the
    exception leaves approve and reject uncaught, the world is as before,
    and the request is still pending. *)
Theorem resolution_lets_store_failure_out v ctx request_id w r msg :
  is_admin_session ctx = true →
  store_error w = Some msg →
  table_get SubscriptionRequest.id request_id (requests (db w)) = Some r →
  SubscriptionRequest.status r = "pending" →
  view v ctx request_id w = (Raise (StoreFailure msg), w)
  ∧ status_of request_id (db (view v ctx request_id w).2) = Some "pending".
Proof.
  intros Hadm Herr Hget Hpend. unfold view.
  rewrite admin_required_admin by done.
  rewrite (view_body_store_failure v ctx request_id w r msg) by done.
  split; [done|]. cbn [snd]. unfold status_of. by rewrite Hget, <- Hpend.
Qed.

Lemma resolution_lets_store_failure_out_witness :
  view Approve admin_ctx "r2" w_down = (Raise (StoreFailure "connection lost"), w_down)
  ∧ status_of "r2" (db (view Approve admin_ctx "r2" w_down).2) = Some "pending".
Proof.
  apply (resolution_lets_store_failure_out Approve admin_ctx "r2" w_down r2);
    reflexivity.
Defined.
